(** * odin-ai: a shallow embedding of the probabilistic layers and utilities

    The development follows the Python sources module by module:

    - [Py]: the exception monad and the few Python values the code handles;
    - [DistributionAlias]: [odin/bay/distribution_alias.py];
    - [ImageBase]: [odin/fuel/_image_base.py];
    - [FastTsne]: [odin/ml/fast_tsne.py];
    - [Dense]: [odin/bay/layers/dense.py];
    - [FactorVae]: [odin/bay/vi/autoencoder/factor_vae.py].

    Calls into TensorFlow, Keras, TensorFlow-Probability, numpy and the parts
    of odin that live in other files are taken as section variables, so every
    statement holds for whatever those functions compute. *)

From Stdlib Require Import ZArith QArith Qminmax Lia Ascii String List.
From stdpp Require Import base option list strings gmap sorting pretty.

#[local] Set Warnings "-register-all".

Local Open Scope string_scope.
Local Open Scope list_scope.

(** ** Python values, exceptions and the exception monad *)

Module Py.

(** The exceptions raised by the embedded code, each with its message (for
    [NameError], the name that could not be resolved). *)
Inductive exn : Type :=
| ValueError (msg : string)
| AssertionError (msg : string)
| RuntimeError (msg : string)
| NameError (name : string)
| AttributeError (attr : string)
| KeyError (key : string)
| TypeError (msg : string)
| UnboundLocalError (name : string)
| IndexError
| StopIteration.

(** A Python call either returns a value or raises. *)
Inductive result (A : Type) : Type :=
| Ok (a : A)
| Raise (e : exn).
Arguments Ok {A} _.
Arguments Raise {A} _.

Definition bind {A B} (k : A -> result B) (c : result A) : result B :=
  match c with
  | Ok a => k a
  | Raise e => Raise e
  end.

#[global] Instance result_ret : MRet result := fun A a => Ok a.
#[global] Instance result_bind : MBind result := fun A B k c => bind k c.
#[global] Instance result_fmap : FMap result := fun A B f c => bind (fun a => Ok (f a)) c.

(** [assert cond, msg] *)
Definition assert (cond : bool) (msg : string) : result unit :=
  if cond then Ok tt else Raise (AssertionError msg).

(** [sep.join(items)] *)
Fixpoint join (sep : string) (items : list string) : string :=
  match items with
  | [] => ""
  | [x] => x
  | x :: rest => x +:+ sep +:+ join sep rest
  end.

(** [needle in haystack] for strings, as a proposition. *)
Definition occurs_in (needle haystack : string) : Prop :=
  exists before after, haystack = before +:+ needle +:+ after.

(** ASCII lower-casing, which is what [str.lower] does on the ASCII strings
    the alias table is made of. *)
Definition lower_ascii (c : ascii) : ascii :=
  let n := nat_of_ascii c in
  if (65 <=? n)%nat && (n <=? 90)%nat then ascii_of_nat (n + 32) else c.

Fixpoint lower (s : string) : string :=
  match s with
  | EmptyString => EmptyString
  | String c rest => String (lower_ascii c) (lower rest)
  end.

End Py.

(** ** odin/bay/distribution_alias.py *)

Module DistributionAlias.
Import Py.

(** The distribution layers of [odin.bay.distribution_layers] named by the
    table. *)
Inductive layer_class : Type :=
| BernoulliLayer
| ZeroInflatedBernoulliLayer
| NormalLayer
| LogNormalLayer
| NegativeBinomialLayer
| ZeroInflatedNegativeBinomialLayer
| PoissonLayer
| ZeroInflatedPoissonLayer
| DirichletLayer
| OneHotCategoricalLayer.

(** The [tfd] distribution classes named by the table. *)
Inductive dist_class : Type :=
| Bernoulli
| Normal
| LogNormal
| NegativeBinomial
| Poisson
| Dirichlet
| OneHotCategorical.

(** The dictionary literal handed to [multikeysdict]: every entry has a tuple
    of aliases (a single string key is a one-element tuple here). *)
Definition _dist_mapping_literal : list (list string * (layer_class * dist_class)) :=
  [ (["bern"; "bernoulli"], (BernoulliLayer, Bernoulli));
    (["zibernoulli"; "zeroinflatedbernoulli"], (ZeroInflatedBernoulliLayer, Bernoulli));
    (["normal"; "gaussian"], (NormalLayer, Normal));
    (["lognormal"], (LogNormalLayer, LogNormal));
    (["nb"; "negativebinomial"], (NegativeBinomialLayer, NegativeBinomial));
    (["zinb"; "zinegativebinomial"; "zeroinflatednegativebinomial"],
     (ZeroInflatedNegativeBinomialLayer, NegativeBinomial));
    (["pois"; "poisson"], (PoissonLayer, Poisson));
    (["zipois"; "zipoisson"; "zeroinflatedpoisson"], (ZeroInflatedPoissonLayer, Poisson));
    (["dirichlet"], (DirichletLayer, Dirichlet));
    (["onehot"], (OneHotCategoricalLayer, OneHotCategorical)) ].

(** Modelled from the spec: [multikeysdict] of [odin.utils.python_utils] is
    not among the sources. A tuple key stands for each of its members, so the
    dictionary has one entry per alias; the entries are kept in the order of
    the literal (no statement below depends on that order). *)
Definition multikeysdict {V} (literal : list (list string * V)) : list (string * V) :=
  flat_map (fun entry => map (fun k => (k, snd entry)) (fst entry)) literal.

Definition _dist_mapping : list (string * (layer_class * dist_class)) :=
  multikeysdict _dist_mapping_literal.

(** [d[key]] / [key in d] on the expanded dictionary. *)
Fixpoint getitem {V} (d : list (string * V)) (key : string) : option V :=
  match d with
  | [] => None
  | (k, v) :: rest => if String.eqb k key then Some v else getitem rest key
  end.

Definition keys {V} (d : list (string * V)) : list string := map fst d.

Definition not_found_message (alias : string) (available : list string) : string :=
  "Cannot find distribution with alias: '" +:+ alias +:+
  "', all available distributions: " +:+ join ", " available.

(** [parse_distribution], over any alias table: the argument is lower-cased,
    an alias that is not a key raises, a key returns its pair. *)
Definition parse_distribution_in {V} (mapping : list (string * V)) (alias : string)
  : result V :=
  let alias := lower alias in
  match getitem mapping alias with
  | None => Raise (ValueError (not_found_message alias (keys mapping)))
  | Some found => Ok found
  end.

Definition parse_distribution : string -> result (layer_class * dist_class) :=
  parse_distribution_in _dist_mapping.

End DistributionAlias.

(** ** The TensorFlow operations the sources call *)

Module Tf.
Import Py.

(** A tensor is a scalar or a stack of tensors along its leading axis. *)
Inductive tensor (A : Type) : Type :=
| Scalar (x : A)
| Axis (items : list (tensor A)).
Arguments Scalar {A} _.
Arguments Axis {A} items.

Fixpoint tmap {A B} (f : A -> B) (t : tensor A) : tensor B :=
  match t with
  | Scalar x => Scalar (f x)
  | Axis items => Axis (map (tmap f) items)
  end.

(** All the entries of a tensor, in row-major order. *)
Fixpoint elements {A} (t : tensor A) : list A :=
  match t with
  | Scalar x => [x]
  | Axis items => flat_map elements items
  end.

(** [t.shape.ndims], read along the first entry of every axis. *)
Fixpoint ndims {A} (t : tensor A) : nat :=
  match t with
  | Scalar _ => 0
  | Axis [] => 1
  | Axis (first :: _) => S (ndims first)
  end.

(** [tf.expand_dims(t, axis=0)] *)
Definition expand_dims0 {A} (t : tensor A) : tensor A := Axis [t].

(** [tf.tile(t, multiples)]: axis [i] is repeated [multiples[i]] times. At the
    one call site the list is as long as the rank of [t]. *)
Fixpoint tile {A} (t : tensor A) (multiples : list Z) : tensor A :=
  match t with
  | Scalar x => Scalar x
  | Axis items =>
      match multiples with
      | [] => Axis items
      | m :: rest =>
          Axis (concat (replicate (Z.to_nat m) (map (fun item => tile item rest) items)))
      end
  end.

(** [tf.split(value, 2, axis=0)]: two equal parts along the leading axis; the
    size of that axis has to be divisible by 2. *)
Definition split2 {A} (value : tensor A) : result (tensor A * tensor A) :=
  match value with
  | Scalar _ => Raise (ValueError "Rank-0 tensors are not supported as the value argument of split")
  | Axis rows =>
      let n := length rows in
      if Nat.even n
      then Ok (Axis (take (n / 2) rows), Axis (drop (n / 2) rows))
      else Raise (ValueError "Dimension size must be evenly divisible by 2")
  end.

(** [tf.clip_by_value(t, lo, hi)], which is [maximum(minimum(t, hi), lo)]. *)
Definition clip_by_value (t : tensor Q) (lo hi : Q) : tensor Q :=
  tmap (fun x => Qmax (Qmin x hi) lo) t.

(** [t / c] for a Python number [c]. *)
Definition truediv (t : tensor Q) (c : Q) : tensor Q :=
  tmap (fun x => (x / c)%Q) t.

End Tf.

(** ** odin/fuel/_image_base.py *)

Module ImageBase.
Import Tf.

(** The two clipping bounds, [1e-6] and [1. - 1e-6]. *)
Definition clip_min : Q := 1 # 1000000.
Definition clip_max : Q := (1 - (1 # 1000000))%Q.

(** [ImageDataset.normalize_255]: pixel values are exact rationals here. *)
Definition normalize_255 (image : tensor Q) : tensor Q :=
  clip_by_value (truediv image 255) clip_min clip_max.

End ImageBase.

(** ** odin/ml/fast_tsne.py *)

Module FastTsne.
Import Py.

(** The Python values that are passed as keyword arguments. A float is kept
    as the text [repr] prints for it: the code only hands it on to the t-SNE
    class and prints it into the cache key. *)
Inductive pyval : Type :=
| PNone
| PBool (b : bool)
| PInt (n : Z)
| PFloat (text : string)
| PStr (s : string).

Definition repr (v : pyval) : string :=
  match v with
  | PNone => "None"
  | PBool true => "True"
  | PBool false => "False"
  | PInt n => pretty n
  | PFloat text => text
  | PStr s => "'" +:+ s +:+ "'"
  end.

(** [str(items)] for a list of [(key, value)] tuples. *)
Definition str_items (items : list (string * pyval)) : string :=
  "[" +:+ join ", " (map (fun kv => "(" +:+ repr (PStr kv.1) +:+ ", " +:+ repr kv.2 +:+ ")") items)
  +:+ "]".

Definition key_le (a b : string * pyval) : Prop := String.leb a.1 b.1 = true.

#[global] Instance key_le_dec : RelDecision key_le.
Proof. intros a b. unfold key_le. apply _. Defined.

(** [sorted(d.items(), key=lambda x: x[0])] *)
Definition sorted_items (d : gmap string pyval) : list (string * pyval) :=
  merge_sort key_le (map_to_list d).

(** [_create_key] *)
Definition _create_key (framework : string) (kwargs : gmap string pyval) (md5 : string)
  : result string :=
  let key := kwargs in
  match key !! "verbose" with
  | None => Raise (KeyError "verbose")
  | Some _ =>
      let key := delete "verbose" key in
      let key := <["md5" := PStr md5]> key in
      Ok (framework +:+ str_items (sorted_items key))
  end.

(** The keyword arguments of [fast_tsne] that reach the t-SNE class, with
    their default values. *)
Definition default_kwargs : gmap string pyval :=
  list_to_map
    [ ("n_components", PInt 2);
      ("perplexity", PFloat "30.0");
      ("early_exaggeration", PFloat "8.0");
      ("learning_rate", PFloat "200.0");
      ("n_iter", PInt 1000);
      ("n_iter_without_progress", PInt 300);
      ("min_grad_norm", PFloat "1e-07");
      ("metric", PStr "euclidean");
      ("init", PStr "random");
      ("verbose", PInt 0);
      ("random_state", PInt 1234);
      ("method", PStr "barnes_hut");
      ("angle", PFloat "0.5");
      ("n_jobs", PInt 4) ].

(** The keyword arguments that [fast_tsne] pops from [kwargs] and uses
    itself, and the others as given by the caller. *)
Record arguments : Type := {
  n_samples : option Z;
  combined : bool;
  return_model : bool;
  force_sklearn : bool;
  given_kwargs : gmap string pyval
}.

(** Two dictionaries that have the same entries except, possibly, for
    [verbose]. *)
Definition agree_except_verbose (k1 k2 : gmap string pyval) : Prop :=
  forall k, k <> "verbose" -> k1 !! k = k2 !! k.

(** Two calls whose keyword arguments are the same except, possibly, for
    [verbose]. *)
Definition same_except_verbose (a1 a2 : arguments) : Prop :=
  n_samples a1 = n_samples a2 /\
  combined a1 = combined a2 /\
  return_model a1 = return_model a2 /\
  force_sklearn a1 = force_sklearn a2 /\
  agree_except_verbose (given_kwargs a1) (given_kwargs a2).

Inductive backend : Type := Cuda | Multicore | Sklearn.

Definition backend_name (v : backend) : string :=
  match v with
  | Cuda => "cuda"
  | Multicore => "multicore"
  | Sklearn => "sklearn"
  end.

(** What [fast_tsne] returns: one embedding or a list of them, with the model
    when [return_model] is set. *)
Inductive embeddings (Emb : Type) : Type :=
| One (e : Emb)
| Several (es : list Emb).
Arguments One {Emb} _.
Arguments Several {Emb} es.

Inductive models (Model : Type) : Type :=
| LastModel (m : option Model)
| ModelList (ms : list (option Model)).
Arguments LastModel {Model} _.
Arguments ModelList {Model} ms.

Inductive output (Emb Model : Type) : Type :=
| Embeddings (r : embeddings Emb)
| WithModel (r : embeddings Emb) (m : models Model).
Arguments Embeddings {Emb Model} _.
Arguments WithModel {Emb Model} r m.

(** A positional argument: a numpy array (its rows), a tuple or list, or
    anything else. *)
Inductive arg (Row : Type) : Type :=
| NdArray (rows : list Row)
| Sequence (items : list (arg Row))
| Other.
Arguments NdArray {Row} rows.
Arguments Sequence {Row} items.
Arguments Other {Row}.

Definition as_ndarray {Row} (x : arg Row) : option (list Row) :=
  match x with
  | NdArray rows => Some rows
  | _ => None
  end.

(** The embeddings of a return value, as a list. *)
Definition embedding_list {Emb} (r : embeddings Emb) : list Emb :=
  match r with
  | One e => [e]
  | Several es => es
  end.

(** The module state: the cache [_cached_values], and the number of
    [fit_transform] calls made so far. *)
Record state (ERow : Type) : Type := {
  _cached_values : gmap string (list ERow);
  fit_calls : nat
}.
Arguments _cached_values {ERow} _.
Arguments fit_calls {ERow} _.

(** An array with this checksum has its embedding in the cache, under the
    key made for the package and the keyword arguments. *)
Definition is_cached {ERow} (tsne_version : backend) (kwargs : gmap string pyval)
    (cache : gmap string (list ERow)) (md5 : string) : Prop :=
  exists key, _create_key (backend_name tsne_version) kwargs md5 = Ok key /\
              is_Some (cache !! key).

(** The binding of [model] after lines 207-222 when there was nothing to
    compute: unbound after the empty loop, the empty list on the other path. *)
Definition model_when_cached {Model} (tsne_version : backend) : option (models Model) :=
  match tsne_version with
  | Cuda | Multicore => None
  | Sklearn => Some (ModelList [])
  end.

Section FastTsne.
Context {Row ERow Model Rng : Type}.

(** [odin.utils.crypto.md5_checksum] *)
Variable md5_checksum : list Row -> string.
(** [np.random.RandomState(seed=...)] and its [permutation] method: the
    generator is a function of the seed (a seed of [None], which draws on the
    operating system, is not modelled) *)
Variable RandomState : pyval -> Rng.
Variable permutation : Rng -> nat -> list nat * Rng.
(** whether [cuml] and [MulticoreTSNE] can be imported *)
Variable cuml_installed multicore_installed : bool.
(** [fit_transform] of the t-SNE class of the selected package, built from
    the keyword arguments; it comes with the trained model *)
Variable fit_transform : backend -> gmap string pyval -> list Row -> list ERow * Model.

(** Lines 125-126: [X[0]] stands for [X] when it is a tuple or a list. *)
Definition unwrap_sequence (X : list (arg Row)) : list (arg Row) :=
  match X with
  | Sequence items :: _ => items
  | _ => X
  end.

(** Lines 124-128: the checks on the positional arguments. *)
Definition check_inputs (X : list (arg Row)) : result (list (list Row)) :=
  _ ← assert (0 <? length X)%nat "No input is given!";
  let X := unwrap_sequence X in
  if forallb (fun x => bool_decide (is_Some (as_ndarray x))) X
  then Ok (omap as_ndarray X)
  else Raise (ValueError "`X` can only be list of numpy.ndarray or numpy.ndarray").

(** [x[ids]] *)
Definition take_rows (x : list Row) (ids : list nat) : result (list Row) :=
  mapM (fun i => match x !! i with
                 | Some r => Ok r
                 | None => Raise IndexError
                 end) ids.

(** The body of the downsampling loop, lines 143-147. *)
Fixpoint downsample_loop (n : nat) (rand : Rng) (X : list (list Row))
  : result (list (list Row)) :=
  match X with
  | [] => Ok []
  | x :: rest =>
      if (n <? length x)%nat
      then
        let '(perm, rand') := permutation rand (length x) in
        x' ← take_rows x (take n perm);
        new_X ← downsample_loop n rand' rest;
        Ok (x' :: new_X)
      else
        new_X ← downsample_loop n rand rest;
        Ok (x :: new_X)
  end.

(** Lines 137-148. *)
Definition downsample (n_samples : option Z) (random_state : pyval) (X : list (list Row))
  : result (list (list Row)) :=
  match n_samples with
  | None => Ok X
  | Some n =>
      _ ← assert (0 <? n)%Z "";
      downsample_loop (Z.to_nat n) (RandomState random_state) X
  end.

(** Lines 150-170: the first package that can be imported. *)
Definition select_backend (force_sklearn : bool) : backend :=
  if force_sklearn then Sklearn
  else if cuml_installed then Cuda
  else if multicore_installed then Multicore
  else Sklearn.

(** Lines 172-177. *)
Definition modify_kwargs (tsne_version : backend) (kwargs : gmap string pyval)
  : gmap string pyval :=
  match tsne_version with
  | Multicore => kwargs
  | _ => delete "n_jobs" kwargs
  end.

(** An entry of [X_new]: the position of the array, its checksum, its rows. *)
Definition job : Type := nat * string * list Row.

(** Lines 185-190 and 193-198: one array is either found in the cache or
    queued. *)
Definition lookup_one (tsne_version : backend) (kwargs : gmap string pyval)
    (cache : gmap string (list ERow)) (i : nat) (x : list Row)
  : result (list (nat * list ERow) * list job) :=
  let md5 := md5_checksum x in
  key ← _create_key (backend_name tsne_version) kwargs md5;
  match cache !! key with
  | Some cached => Ok ([(i, cached)], [])
  | None => Ok ([], [(i, md5, x)])
  end.

(** The loop of lines 192-198, from position [i] on. *)
Fixpoint lookup_each (tsne_version : backend) (kwargs : gmap string pyval)
    (cache : gmap string (list ERow)) (i : nat) (X : list (list Row))
  : result (list (nat * list ERow) * list job) :=
  match X with
  | [] => Ok ([], [])
  | x :: rest =>
      '(results, X_new) ← lookup_one tsne_version kwargs cache i x;
      '(results', X_new') ← lookup_each tsne_version kwargs cache (S i) rest;
      Ok (results ++ results', X_new ++ X_new')
  end.

(** Lines 179-198: [(X_size, results, X_new)]. *)
Definition lookup_cached (tsne_version : backend) (kwargs : gmap string pyval)
    (combined : bool) (cache : gmap string (list ERow)) (X : list (list Row))
  : result (list nat * list (nat * list ERow) * list job) :=
  if combined then
    let X_size := map length X in
    x ← (if (1 <? length X)%nat then Ok (concat X)
         else match X with
              | x :: _ => Ok x
              | [] => Raise IndexError
              end);
    '(results, X_new) ← lookup_one tsne_version kwargs cache 0 x;
    Ok (X_size, results, X_new)
  else
    '(results, X_new) ← lookup_each tsne_version kwargs cache 0 X;
    Ok ([], results, X_new).

(** [apply_tsne], lines 201-204. *)
Definition apply_tsne (tsne_version : backend) (kwargs : gmap string pyval)
    (return_model : bool) (j : job) : nat * string * list ERow * option Model :=
  let '(idx, md5, x) := j in
  let '(embedded, tsne) := fit_transform tsne_version kwargs x in
  (idx, md5, embedded, if return_model then Some tsne else None).

Definition count_fit (st : state ERow) : state ERow :=
  {| _cached_values := _cached_values st; fit_calls := S (fit_calls st) |}.

Definition store (key : string) (x : list ERow) (st : state ERow) : state ERow :=
  {| _cached_values := <[key := x]> (_cached_values st); fit_calls := fit_calls st |}.

(** The loop of lines 208-211. [model] is [None] as long as the local
    variable of that name has not been assigned. *)
Fixpoint run_sequential (tsne_version : backend) (kwargs : gmap string pyval)
    (return_model : bool) (X_new : list job) (results : list (nat * list ERow))
    (model : option (option Model)) (st : state ERow)
  : result (list (nat * list ERow) * option (option Model)) * state ERow :=
  match X_new with
  | [] => (Ok (results, model), st)
  | j :: rest =>
      let '(idx, md5, x, m) := apply_tsne tsne_version kwargs return_model j in
      let st := count_fit st in
      let results := results ++ [(idx, x)] in
      match _create_key (backend_name tsne_version) kwargs md5 with
      | Raise e => (Raise e, st)
      | Ok key =>
          run_sequential tsne_version kwargs return_model rest results (Some m)
                         (store key x st)
      end
  end.

(** Modelled from the spec: [MPI] of [odin.utils.mpi] is not among the
    sources. It is taken to apply [func] to every job and to yield every
    result once, here in the order of the jobs. This is the loop of lines
    213-222 over it. *)
Fixpoint run_mpi (tsne_version : backend) (kwargs : gmap string pyval)
    (return_model : bool) (X_new : list job) (results : list (nat * list ERow))
    (model : list (option Model)) (st : state ERow)
  : result (list (nat * list ERow) * list (option Model)) * state ERow :=
  match X_new with
  | [] => (Ok (results, model), st)
  | j :: rest =>
      let '(idx, md5, x, m) := apply_tsne tsne_version kwargs return_model j in
      let st := count_fit st in
      let results := results ++ [(idx, x)] in
      match _create_key (backend_name tsne_version) kwargs md5 with
      | Raise e => (Raise e, st)
      | Ok key =>
          run_mpi tsne_version kwargs return_model rest results (model ++ [m])
                  (store key x st)
      end
  end.

(** Lines 207-222: the value of [results] and the binding of [model]. *)
Definition perform (tsne_version : backend) (kwargs : gmap string pyval)
    (return_model : bool) (X_new : list job) (results : list (nat * list ERow))
    (st : state ERow)
  : result (list (nat * list ERow) * option (models Model)) * state ERow :=
  if (length X_new =? 1)%nat
     || match tsne_version with Cuda | Multicore => true | Sklearn => false end
  then
    match run_sequential tsne_version kwargs return_model X_new results None st with
    | (Ok (results, model), st) => (Ok (results, LastModel <$> model), st)
    | (Raise e, st) => (Raise e, st)
    end
  else
    match run_mpi tsne_version kwargs return_model X_new results [] st with
    | (Ok (results, model), st) => (Ok (results, Some (ModelList model)), st)
    | (Raise e, st) => (Raise e, st)
    end.

(** [np.cumsum(sizes).tolist()] *)
Fixpoint cumsum_from (acc : nat) (sizes : list nat) : list nat :=
  match sizes with
  | [] => []
  | n :: rest => (acc + n)%nat :: cumsum_from (acc + n) rest
  end.

(** [l[s:e]] *)
Definition slice {A} (l : list A) (s e : nat) : list A := take (e - s) (drop s l).

Definition idx_le (a b : nat * list ERow) : Prop := (a.1 <= b.1)%nat.

#[global] Instance idx_le_dec : RelDecision idx_le.
Proof. intros a b. unfold idx_le. apply _. Defined.

(** Lines 224-230. *)
Definition collect (combined : bool) (X_size : list nat) (results : list (nat * list ERow))
  : result (embeddings (list ERow)) :=
  results ← (if combined && (1 <? length X_size)%nat then
               match results with
               | [] => Raise IndexError
               | (_, embedded) :: _ =>
                   let indices := 0%nat :: cumsum_from 0 X_size in
                   Ok (map (fun se => slice embedded se.1 se.2) (zip indices (tail indices)))
               end
             else Ok (map snd (merge_sort idx_le results)));
  Ok (match results with
      | [r] => One r
      | _ => Several results
      end).

(** Lines 231-233. *)
Definition finish (return_model : bool) (results : embeddings (list ERow))
    (model : option (models Model)) : result (output (list ERow) Model) :=
  if return_model then
    match model with
    | None => Raise (UnboundLocalError "model")
    | Some model => Ok (WithModel results model)
    end
  else Ok (Embeddings results).

(** Lines 124-177: everything before the cache is read. A keyword that
    [fast_tsne] does not declare is refused by the call itself. *)
Definition prepare (X : list (arg Row)) (a : arguments)
  : result (list (list Row) * backend * gmap string pyval) :=
  if bool_decide (dom (given_kwargs a) ⊆ dom default_kwargs) then
    X ← check_inputs X;
    let kwargs := given_kwargs a ∪ default_kwargs in
    let random_state := default PNone (kwargs !! "random_state") in
    X ← downsample (n_samples a) random_state X;
    let tsne_version := select_backend (force_sklearn a) in
    Ok (X, tsne_version, modify_kwargs tsne_version kwargs)
  else Raise (TypeError "fast_tsne() got an unexpected keyword argument").

(** [fast_tsne] *)
Definition fast_tsne (X : list (arg Row)) (a : arguments) (st : state ERow)
  : result (output (list ERow) Model) * state ERow :=
  match prepare X a with
  | Raise e => (Raise e, st)
  | Ok (X, tsne_version, kwargs) =>
      match lookup_cached tsne_version kwargs (combined a) (_cached_values st) X with
      | Raise e => (Raise e, st)
      | Ok (X_size, results, X_new) =>
          match perform tsne_version kwargs (return_model a) X_new results st with
          | (Raise e, st) => (Raise e, st)
          | (Ok (results, model), st) =>
              (results ← collect (combined a) X_size results;
               finish (return_model a) results model, st)
          end
      end
  end.

(** What the downsampling loop does to one array: an array with more than
    [n] rows becomes the [n] rows at the first [n] indices of a permutation
    drawn from the generator, any other array stays as it is. *)
Definition sampled_or_same (n : nat) (x x' : list Row) : Prop :=
  if (n <? length x)%nat then
    length x' = n /\
    exists (rand : Rng) (ids : list nat),
      ids = take n (permutation rand (length x)).1 /\
      NoDup ids /\
      Forall2 (fun i r => x !! i = Some r) ids x'
  else x' = x.

End FastTsne.
End FastTsne.

(** ** odin/bay/layers/dense.py *)

Module Dense.
Import Py Tf.

(** The values found in [posterior_kwargs] and in function closures: an int,
    a shape, a function (by name), or something else. *)
Inductive kwval : Type :=
| KInt (n : Z)
| KShape (dims : list Z)
| KFn (name : string)
| KOther (text : string).

#[global] Instance kwval_eq_dec : EqDecision kwval.
Proof. solve_decision. Defined.

(** [Distribution.sample], the default [convert_to_tensor_fn]. *)
Definition Distribution_sample : kwval := KFn "Distribution.sample".

(** A [sample_shape] argument: an int or a shape. *)
Inductive sample_shape_arg : Type :=
| SInt (n : Z)
| SShape (dims : list Z).

(** The [convert_to_tensor_fn] a posterior layer is built with:
    [partial(Distribution.sample, sample_shape=...)] or a given function. *)
Inductive convert_fn : Type :=
| PartialSample (sample_shape : sample_shape_arg)
| GivenFn (fn : kwval).

(** The [posterior] argument: a [DistributionLambda] subclass or anything
    else, which is then read as an alias. *)
Inductive posterior_spec (LayerCls : Type) : Type :=
| PostClass (cls : LayerCls)
| PostAlias (alias : string).
Arguments PostClass {LayerCls} cls.
Arguments PostAlias {LayerCls} alias.

(** A posterior layer instance: the class and what its constructor got. *)
Record layer_instance (LayerCls : Type) : Type := {
  li_class : LayerCls;
  li_event_shape : kwval;
  li_convert_to_tensor_fn : convert_fn;
  li_kwargs : gmap string kwval
}.
Arguments li_class {LayerCls} _.
Arguments li_event_shape {LayerCls} _.
Arguments li_convert_to_tensor_fn {LayerCls} _.
Arguments li_kwargs {LayerCls} _.

(** [KLdivergence(posterior, prior=..., sample_shape=...)] of
    [odin.bay.helpers], as the arguments it was built from. *)
Record KLdivergence (Dist : Type) : Type := {
  kl_posterior : Dist;
  kl_prior : option Dist;
  kl_sample_shape : option sample_shape_arg
}.
Arguments kl_posterior {Dist} _.
Arguments kl_prior {Dist} _.
Arguments kl_sample_shape {Dist} _.

(** The distribution object that [call] returns: the distribution made by
    the posterior layer and the two attributes [call] sets on it. For
    [attr_prior], [None] is an object without that attribute and [Some None]
    one on which it is [None]. *)
Record posterior_obj (Dist : Type) : Type := {
  distribution : Dist;
  attr_KL_divergence : option (KLdivergence Dist);
  attr_prior : option (option Dist)
}.
Arguments distribution {Dist} _.
Arguments attr_KL_divergence {Dist} _.
Arguments attr_prior {Dist} _.

(** The attributes of a [DenseDistribution] that the embedded methods use. *)
Record DenseDistribution (LayerCls Dist : Type) : Type := {
  units : Z;
  _convert_to_tensor_fn : kwval;
  _posterior : posterior_spec LayerCls;
  _prior : option Dist;
  _event_shape : kwval;
  _posterior_class : LayerCls;
  _posterior_kwargs : gmap string kwval;
  _dropout : Q;
  _disable_projection : bool;
  _last_distribution : option (posterior_obj Dist)
}.
Arguments units {LayerCls Dist} _.
Arguments _convert_to_tensor_fn {LayerCls Dist} _.
Arguments _posterior {LayerCls Dist} _.
Arguments _prior {LayerCls Dist} _.
Arguments _event_shape {LayerCls Dist} _.
Arguments _posterior_class {LayerCls Dist} _.
Arguments _posterior_kwargs {LayerCls Dist} _.
Arguments _dropout {LayerCls Dist} _.
Arguments _disable_projection {LayerCls Dist} _.
Arguments _last_distribution {LayerCls Dist} _.

(** The arguments of [DenseDistribution.__init__] that are not just handed on
    to [Dense.__init__]. *)
Record init_args (LayerCls Dist : Type) : Type := {
  arg_event_shape : kwval;
  arg_posterior : posterior_spec LayerCls;
  arg_posterior_kwargs : gmap string kwval;
  arg_prior : option Dist;
  arg_dropout : Q;
  arg_disable_projection : bool
}.
Arguments arg_event_shape {LayerCls Dist} _.
Arguments arg_posterior {LayerCls Dist} _.
Arguments arg_posterior_kwargs {LayerCls Dist} _.
Arguments arg_prior {LayerCls Dist} _.
Arguments arg_dropout {LayerCls Dist} _.
Arguments arg_disable_projection {LayerCls Dist} _.

(** [tf.reduce_prod(event_shape)] *)
Definition reduce_prod (event_shape : kwval) : result Z :=
  match event_shape with
  | KInt n => Ok n
  | KShape dims => Ok (foldr Z.mul 1%Z dims)
  | _ => Raise (TypeError "reduce_prod: not a shape")
  end.

(** How many copies the analytic divergence is returned in. *)
Definition copies (sample_shape : sample_shape_arg) : nat :=
  match sample_shape with
  | SInt n => if (1 <? n)%Z then Z.to_nat n else 1
  | SShape _ => 1
  end.

Section DenseDistribution.
Context {LayerCls Dist Num : Type}.

(** the class object of every layer named in the alias table *)
Variable alias_class : DistributionAlias.layer_class -> LayerCls.
(** [inspect.getfullargspec(layer.params_size)]: [spec.args + spec.kwonlyargs] *)
Variable params_size_args : LayerCls -> list string.
(** [layer.params_size(event_shape, **kw)] *)
Variable params_size : LayerCls -> kwval -> gmap string kwval -> result Z.
(** the free variables of [layer._make_distribution_fn] with their contents;
    [None] when the function has no closure ([fn.__closure__] is [None]) *)
Variable closures : layer_instance LayerCls -> option (gmap string kwval).
(** [Dense.call] for a layer with so many units *)
Variable Dense_call : Z -> tensor Num -> result (tensor Num).
(** [bk.dropout(params, p_drop=..., training=...)] *)
Variable dropout : tensor Num -> Q -> option bool -> result (tensor Num).
(** calling a posterior layer on the parameters *)
Variable layer_call : layer_instance LayerCls -> tensor Num -> option bool -> result Dist.
(** whether a distribution made by a posterior layer has an attribute [prior] *)
Variable hasattr_prior : Dist -> bool.
(** [odin.bay.helpers.kl_divergence(q, p, analytic, reverse, q_sample,
    auto_remove_independent)] *)
Variable helpers_kl_divergence :
  posterior_obj Dist -> Dist -> bool -> bool -> sample_shape_arg -> bool -> result (tensor Num).

(** [_params_size] *)
Definition _params_size (layer : layer_instance LayerCls) (event_shape : kwval) : result Z :=
  let args := params_size_args (li_class layer) in
  first ← match args with
          | [] => Raise IndexError
          | first :: _ => Ok first
          end;
  event_shape ← (if String.eqb "event_size" first
                 then KInt <$> reduce_prod event_shape
                 else Ok event_shape);
  kw ← (if (1 <? length args)%nat then
          match closures layer with
          | None => Raise (TypeError "zip argument #2 must support iteration")
          | Some closures =>
              Ok (foldl (fun kw k => match closures !! k with
                                     | Some v => <[k := v]> kw
                                     | None => kw
                                     end) ∅ (tail args))
          end
        else Ok ∅);
  params_size (li_class layer) event_shape kw.

(** [DenseDistribution.posterior_layer] *)
Definition posterior_layer (self : DenseDistribution LayerCls Dist)
    (sample_shape : sample_shape_arg) : layer_instance LayerCls :=
  let fn := if decide (_convert_to_tensor_fn self = Distribution_sample)
            then PartialSample sample_shape
            else GivenFn (_convert_to_tensor_fn self) in
  {| li_class := _posterior_class self;
     li_event_shape := _event_shape self;
     li_convert_to_tensor_fn := fn;
     li_kwargs := _posterior_kwargs self |}.

(** [dict.pop(key, default)] as the value and the remaining dictionary *)
Definition pop (d : gmap string kwval) (key : string) (default_value : kwval)
  : kwval * gmap string kwval :=
  (default default_value (d !! key), delete key d).

(** [DenseDistribution.__init__] *)
Definition __init__ (a : init_args LayerCls Dist) : result (DenseDistribution LayerCls Dist) :=
  let posterior_kwargs := arg_posterior_kwargs a in
  let '(event_shape, posterior_kwargs) :=
    pop posterior_kwargs "event_shape" (arg_event_shape a) in
  let '(event_shape, posterior_kwargs) := pop posterior_kwargs "event_size" event_shape in
  let '(convert_to_tensor_fn, posterior_kwargs) :=
    pop posterior_kwargs "convert_to_tensor_fn" Distribution_sample in
  post_layer_cls ← match arg_posterior a with
                   | PostClass cls => Ok cls
                   | PostAlias alias =>
                       '(layer, _) ← DistributionAlias.parse_distribution alias;
                       Ok (alias_class layer)
                   end;
  let self := {| units := 0;
                 _convert_to_tensor_fn := convert_to_tensor_fn;
                 _posterior := arg_posterior a;
                 _prior := arg_prior a;
                 _event_shape := event_shape;
                 _posterior_class := post_layer_cls;
                 _posterior_kwargs := posterior_kwargs;
                 _dropout := arg_dropout a;
                 _disable_projection := arg_disable_projection a;
                 _last_distribution := None |} in
  params_size ← _params_size (posterior_layer self (SShape [])) event_shape;
  Ok {| units := params_size;
        _convert_to_tensor_fn := convert_to_tensor_fn;
        _posterior := arg_posterior a;
        _prior := arg_prior a;
        _event_shape := event_shape;
        _posterior_class := post_layer_cls;
        _posterior_kwargs := posterior_kwargs;
        _dropout := arg_dropout a;
        _disable_projection := arg_disable_projection a;
        _last_distribution := None |}.

(** the [posterior] property *)
Definition posterior (self : DenseDistribution LayerCls Dist) : option (posterior_obj Dist) :=
  _last_distribution self.

(** the [prior] property *)
Definition prior (self : DenseDistribution LayerCls Dist) : option Dist := _prior self.

Definition set_last_distribution (self : DenseDistribution LayerCls Dist)
    (p : posterior_obj Dist) : DenseDistribution LayerCls Dist :=
  {| units := units self;
     _convert_to_tensor_fn := _convert_to_tensor_fn self;
     _posterior := _posterior self;
     _prior := _prior self;
     _event_shape := _event_shape self;
     _posterior_class := _posterior_class self;
     _posterior_kwargs := _posterior_kwargs self;
     _dropout := _dropout self;
     _disable_projection := _disable_projection self;
     _last_distribution := Some p |}.

(** Lines 224-230 of [call]: the parameters of the posterior. *)
Definition call_params (self : DenseDistribution LayerCls Dist) (inputs : tensor Num)
    (training : option bool) (projection : bool) : result (tensor Num) :=
  params ← (if projection && negb (_disable_projection self)
            then Dense_call (units self) inputs
            else Ok inputs);
  if Qlt_le_dec 0 (_dropout self)
  then dropout params (_dropout self) training
  else Ok params.

(** [DenseDistribution.call]. The returned object and the one kept in
    [_last_distribution] are the same Python object, so the layer holds it
    with the attributes that have been set on it. *)
Definition call (self : DenseDistribution LayerCls Dist) (inputs : tensor Num)
    (training : option bool) (sample_shape : sample_shape_arg) (projection : bool)
    (prior_arg : option Dist)
  : result (posterior_obj Dist) * DenseDistribution LayerCls Dist :=
  match call_params self inputs training projection with
  | Raise e => (Raise e, self)
  | Ok params =>
      match layer_call (posterior_layer self sample_shape) params training with
      | Raise e => (Raise e, self)
      | Ok made =>
          let prior := match prior_arg with
                       | None => prior self
                       | Some p => Some p
                       end in
          let KL := {| kl_posterior := made; kl_prior := prior; kl_sample_shape := None |} in
          let with_kl := {| distribution := made;
                            attr_KL_divergence := Some KL;
                            attr_prior := None |} in
          if hasattr_prior made
          then (Raise (AssertionError "Cannot assign prior to the output"),
                set_last_distribution self with_kl)
          else
            let posterior := {| distribution := made;
                                attr_KL_divergence := Some KL;
                                attr_prior := Some prior |} in
            (Ok posterior, set_last_distribution self posterior)
      end
  end.

(** [DenseDistribution.kl_divergence] *)
Definition kl_divergence (self : DenseDistribution LayerCls Dist) (prior_arg : option Dist)
    (analytic : bool) (sample_shape : sample_shape_arg) (reverse : bool)
  : result (tensor Num) :=
  let prior := match prior_arg with
               | None => _prior self
               | Some p => Some p
               end in
  match prior with
  | None => Raise (AssertionError "prior is not given!")
  | Some prior =>
      match posterior self with
      | None => Raise (RuntimeError "DenseDistribution must be called to create the distribution before calculating the kl-divergence.")
      | Some q =>
          kullback_div ← helpers_kl_divergence q prior analytic reverse sample_shape true;
          if analytic then
            let kullback_div := expand_dims0 kullback_div in
            match sample_shape with
            | SInt n =>
                if (1 <? n)%Z then
                  let ndims := ndims kullback_div in
                  Ok (tile kullback_div (n :: replicate (ndims - 1) 1%Z))
                else Ok kullback_div
            | SShape _ => Ok kullback_div
            end
          else Ok kullback_div
      end
  end.

End DenseDistribution.
End Dense.

(** ** odin/bay/vi/autoencoder/factor_vae.py *)

Module FactorVae.
Import Py Tf.

(** A [tf.Variable]: [var_id] is what [id(p)] returns for it. *)
Record variable : Type := {
  var_id : nat;
  var_name : string
}.

(** A Keras layer, as far as [FactorVAE.__init__] looks at it: its name and
    the value of its [trainable_variables] property. *)
Record layer : Type := {
  layer_name : string;
  layer_trainable_variables : list variable
}.

(** The [discriminator] argument: a layer, or the keyword arguments for a new
    [FactorDiscriminator]. *)
Inductive discriminator_arg : Type :=
| DiscLayer (l : layer)
| DiscConfig (config : gmap string Z).

(** The model once [BetaVAE.__init__] has returned: the layers it tracks, the
    event shapes of its latent layers, its [beta]. *)
Record beta_vae : Type := {
  tracked_layers : list layer;
  latent_event_shapes : list (list Z);
  beta : Q
}.

(** The attributes [FactorVAE.__init__] adds. *)
Record FactorVAE : Type := {
  base : beta_vae;
  gamma : Q;
  discriminator : layer;
  disc_params : list variable;
  vae_params : list variable
}.

(** The values that travel through the training steps. *)
Inductive value (Dist : Type) : Type :=
| VNone
| VBool (b : bool)
| VTensor (t : tensor Q)
| VDist (d : Dist)
| VList (items : list (value Dist))
| VObject (name : string).
Arguments VNone {Dist}.
Arguments VBool {Dist} b.
Arguments VTensor {Dist} t.
Arguments VDist {Dist} d.
Arguments VList {Dist} items.
Arguments VObject {Dist} name.

Inductive step_class : Type := TrainStep | FactorStep.

(** Modelled from the spec: [TrainStep] of [variational_autoencoder.py] is not
    among the sources. Its constructor is taken to keep its keyword arguments
    as attributes of the same names ([iw] and [elbo_kw] are [None] here when
    the caller leaves them to the defaults); [qZ_X] is an attribute that is
    there once it has been assigned ([None]: no such attribute yet). *)
Record step_obj (Dist : Type) : Type := {
  step_cls : step_class;
  inputs : value Dist;
  training : value Dist;
  mask : value Dist;
  sample_shape : list Z;
  iw : option bool;
  elbo_kw : option (gmap string (value Dist));
  parameters : list variable;
  qZ_X : option (value Dist)
}.
Arguments step_cls {Dist} _.
Arguments inputs {Dist} _.
Arguments training {Dist} _.
Arguments mask {Dist} _.
Arguments sample_shape {Dist} _.
Arguments iw {Dist} _.
Arguments elbo_kw {Dist} _.
Arguments parameters {Dist} _.
Arguments qZ_X {Dist} _.

(** What the generator and its caller share: the step counter of the model
    ([self.step], which counts in whole steps) and the step objects, by
    address. *)
Record world (Dist : Type) : Type := {
  step : Z;
  heap : gmap nat (step_obj Dist)
}.
Arguments step {Dist} _.
Arguments heap {Dist} _.

(** The arguments of [train_steps]. *)
Record train_args (Dist : Type) : Type := {
  ta_inputs : value Dist;
  ta_training : value Dist;
  ta_mask : value Dist;
  ta_sample_shape : list Z;
  ta_iw : bool;
  ta_elbo_kw : gmap string (value Dist)
}.
Arguments ta_inputs {Dist} _.
Arguments ta_training {Dist} _.
Arguments ta_mask {Dist} _.
Arguments ta_sample_shape {Dist} _.
Arguments ta_iw {Dist} _.
Arguments ta_elbo_kw {Dist} _.

(** The generator made by [train_steps]: not started, suspended at the first
    or at the second [yield] (with the local variables still in use), or
    finished. *)
Inductive generator (Dist : Type) : Type :=
| Created (args : train_args Dist)
| AtYield1 (args : train_args Dist) (x2 : value Dist) (step1 : nat)
| AtYield2
| Finished.
Arguments Created {Dist} args.
Arguments AtYield1 {Dist} args x2 step1.
Arguments AtYield2 {Dist}.
Arguments Finished {Dist}.

(** [self.trainable_variables]: the trainable variables of the tracked layers
    and, once it is assigned to [self.discriminator], of the discriminator. *)
Definition trainable_variables (b : beta_vae) (tracked : list layer) : list variable :=
  flat_map layer_trainable_variables (tracked_layers b ++ tracked).

(** [a + b] for one-dimensional numpy arrays. *)
Definition array_add (a b : list Z) : result (list Z) :=
  if (length a =? length b)%nat then Ok (zip_with Z.add a b)
  else match a, b with
       | [x], _ => Ok (map (Z.add x) b)
       | _, [y] => Ok (map (fun x => (x + y)%Z) a)
       | _, _ => Raise (ValueError "operands could not be broadcast together")
       end.

(** [np.prod(sum(np.array(layer.event_shape) for layer in self.latent_layers))] *)
Definition latent_dim (shapes : list (list Z)) : result Z :=
  match shapes with
  | [] => Ok 0%Z
  | first :: rest =>
      total ← foldl (fun acc s => acc ← acc; array_add acc s) (Ok first) rest;
      Ok (foldr Z.mul 1%Z total)
  end.

(** Lines 55-76. *)
Definition __init__ (FactorDiscriminator : Z -> gmap string Z -> layer)
    (b : beta_vae) (discriminator : discriminator_arg) (gamma : Q) : result FactorVAE :=
  latent_dim ← latent_dim (latent_event_shapes b);
  let discriminator := match discriminator with
                       | DiscLayer l => l
                       | DiscConfig config => FactorDiscriminator latent_dim config
                       end in
  let disc_params := layer_trainable_variables discriminator in
  let exclude : gset nat := list_to_set (map var_id disc_params) in
  let vae_params :=
    filter (fun p => var_id p ∉ exclude) (trainable_variables b [discriminator]) in
  Ok {| base := b;
        gamma := gamma;
        discriminator := discriminator;
        disc_params := disc_params;
        vae_params := vae_params |}.

(** The names bound at the top level of [factor_vae.py]. *)
Definition module_globals {Dist} : gmap string (value Dist) :=
  list_to_map (map (fun name => (name, VObject name))
    [ "__name__"; "__doc__"; "__package__"; "__loader__"; "__spec__"; "__file__";
      "__cached__"; "__builtins__";
      "Optional"; "np"; "tf"; "keras"; "BetaVAE"; "FactorDiscriminator"; "TrainStep";
      "FactorStep"; "FactorVAE" ]).

(** The names of the [builtins] module. *)
Definition builtins {Dist} : gmap string (value Dist) :=
  list_to_map (map (fun name => (name, VObject name))
    [ "abs"; "all"; "any"; "ascii"; "bin"; "bool"; "breakpoint"; "bytearray"; "bytes";
      "callable"; "chr"; "classmethod"; "compile"; "complex"; "copyright"; "credits";
      "delattr"; "dict"; "dir"; "divmod"; "enumerate"; "eval"; "exec"; "exit"; "filter";
      "float"; "format"; "frozenset"; "getattr"; "globals"; "hasattr"; "hash"; "help";
      "hex"; "id"; "input"; "int"; "isinstance"; "issubclass"; "iter"; "len"; "license";
      "list"; "locals"; "map"; "max"; "memoryview"; "min"; "next"; "object"; "oct";
      "open"; "ord"; "pow"; "print"; "property"; "quit"; "range"; "repr"; "reversed";
      "round"; "set"; "setattr"; "slice"; "sorted"; "staticmethod"; "str"; "sum";
      "super"; "tuple"; "type"; "vars"; "zip"; "__import__"; "__build_class__";
      "__debug__"; "None"; "True"; "False"; "Ellipsis"; "NotImplemented";
      "BaseException"; "Exception"; "ArithmeticError"; "AssertionError";
      "AttributeError"; "BlockingIOError"; "BrokenPipeError"; "BufferError";
      "BytesWarning"; "ChildProcessError"; "ConnectionAbortedError"; "ConnectionError";
      "ConnectionRefusedError"; "ConnectionResetError"; "DeprecationWarning";
      "EOFError"; "EnvironmentError"; "FileExistsError"; "FileNotFoundError";
      "FloatingPointError"; "FutureWarning"; "GeneratorExit"; "IOError"; "ImportError";
      "ImportWarning"; "IndentationError"; "IndexError"; "InterruptedError";
      "IsADirectoryError"; "KeyError"; "KeyboardInterrupt"; "LookupError";
      "MemoryError"; "ModuleNotFoundError"; "NameError"; "NotADirectoryError";
      "NotImplementedError"; "OSError"; "OverflowError"; "PendingDeprecationWarning";
      "PermissionError"; "ProcessLookupError"; "RecursionError"; "ReferenceError";
      "ResourceWarning"; "RuntimeError"; "RuntimeWarning"; "StopAsyncIteration";
      "StopIteration"; "SyntaxError"; "SyntaxWarning"; "SystemError"; "SystemExit";
      "TabError"; "TimeoutError"; "TypeError"; "UnboundLocalError";
      "UnicodeDecodeError"; "UnicodeEncodeError"; "UnicodeError";
      "UnicodeTranslateError"; "UnicodeWarning"; "UserWarning"; "ValueError";
      "Warning"; "ZeroDivisionError" ]).

(** Reading a name that the function body never assigns: the module globals,
    then the builtins. *)
Definition load_global {Dist} (name : string) : result (value Dist) :=
  match module_globals !! name with
  | Some v => Ok v
  | None =>
      match builtins !! name with
      | Some v => Ok v
      | None => Raise (NameError name)
      end
  end.

(** [a, b = v] *)
Definition unpack2 {Dist} (v : value Dist) : result (value Dist * value Dist) :=
  match v with
  | VList [a; b] => Ok (a, b)
  | VList _ => Raise (ValueError "wrong number of values to unpack")
  | VTensor (Axis [a; b]) => Ok (VTensor a, VTensor b)
  | VTensor (Axis _) => Raise (ValueError "wrong number of values to unpack")
  | _ => Raise (TypeError "cannot unpack non-iterable object")
  end.

(** [tf.nest.flatten] *)
Fixpoint flatten {Dist} (v : value Dist) : list (value Dist) :=
  match v with
  | VList items => flat_map flatten items
  | _ => [v]
  end.

(** [tf.split(x, 2, axis=0)] on a value *)
Definition split_value {Dist} (x : value Dist) : result (tensor Q * tensor Q) :=
  match x with
  | VTensor t => split2 t
  | _ => Raise (TypeError "split: not a tensor")
  end.


(** The second step object that [train_steps] makes. *)
Definition second_step {Dist} (self : FactorVAE) (args : train_args Dist) (x2 : tensor Q)
    (q : value Dist) : step_obj Dist :=
  {| step_cls := FactorStep;
     inputs := VList [VTensor x2; q];
     training := ta_training args;
     mask := ta_mask args;
     sample_shape := ta_sample_shape args;
     iw := None;
     elbo_kw := None;
     parameters := disc_params self;
     qZ_X := None |}.

Section FactorVAE.
Context {Dist : Type}.

(** [FactorDiscriminator.total_correlation(qZ_X, training=...)] *)
Variable disc_total_correlation : layer -> value Dist -> value Dist -> result (tensor Q).
(** [FactorDiscriminator.dtc_loss(qZ_X, qZ_Xprime=..., training=...)] *)
Variable disc_dtc_loss :
  layer -> value Dist -> value Dist -> value Dist -> result (tensor Q).
(** [BetaVAE._elbo(X, pX_Z, qZ_X, analytic, reverse, sample_shape)] *)
Variable super_elbo :
  beta_vae -> value Dist -> value Dist -> value Dist -> bool -> bool -> list Z ->
  result (tensor Q * gmap string (tensor Q)).
(** [VariationalAutoencoder.encode(inputs, training=..., mask=..., sample_shape=...)] *)
Variable encode :
  FactorVAE -> value Dist -> value Dist -> value Dist -> list Z -> result (value Dist).

(** [FactorVAE.total_correlation] *)
Definition total_correlation (self : FactorVAE) (qZ_X : value Dist)
    (scaled_by_gamma : bool) (training : value Dist) : result (tensor Q) :=
  tc ← disc_total_correlation (discriminator self) qZ_X training;
  let tc := if scaled_by_gamma then tmap (Qmult (gamma self)) tc else tc in
  Ok tc.

(** [FactorVAE._elbo] *)
Definition _elbo (self : FactorVAE) (X pX_Z qZ_X : value Dist) (analytic reverse : bool)
    (sample_shape : list Z) (mask training : value Dist)
  : result (tensor Q * gmap string (tensor Q)) :=
  '(llk, div) ← super_elbo (base self) X pX_Z qZ_X analytic reverse sample_shape;
  tc ← total_correlation self qZ_X true training;
  let div := <["tc" := tc]> div in
  Ok (llk, div).

(** [FactorVAE.dtc_loss] *)
Definition dtc_loss (self : FactorVAE) (qZ_X qZ_Xprime training : value Dist)
  : result (tensor Q) :=
  disc_dtc_loss (discriminator self) qZ_X qZ_Xprime training.

(** [FactorStep.__call__]: the step, and the model it holds in [self.vae]. *)
Definition FactorStep_call (self : step_obj Dist) (vae : FactorVAE)
  : result (tensor Q * gmap string (tensor Q)) :=
  '(inputs, qZ_X) ← unpack2 (inputs self);
  qZ_Xprime ← encode vae inputs (training self) (mask self) (sample_shape self);
  training ← load_global "training";
  dtc_loss ← dtc_loss vae qZ_X qZ_Xprime training;
  Ok (dtc_loss, {["dtc" := dtc_loss]}).

(** A new object gets an address that is not in use. *)
Definition alloc (o : step_obj Dist) (w : world Dist) : nat * world Dist :=
  let a := fresh (dom (heap w)) in
  (a, {| step := step w; heap := <[a := o]> (heap w) |}).

(** Lines 127-132: the two mini-batches. *)
Definition split_inputs (inputs : value Dist) : result (value Dist * value Dist) :=
  match inputs with
  | VTensor t =>
      '(x1, x2) ← split2 t;
      Ok (VTensor x1, VTensor x2)
  | _ =>
      inputs ← mapM split_value (flatten inputs);
      Ok (VList (map (fun i => VTensor i.1) inputs),
          VList (map (fun i => VTensor i.2) inputs))
  end.

(** [FactorVAE.train_steps]: calling it only makes the generator. *)
Definition train_steps (args : train_args Dist) : generator Dist := Created args.

(** [next(g)]: the body of [train_steps] from where it stands up to the next
    [yield]. The result is the address of the yielded step. *)
Definition next (self : FactorVAE) (g : generator Dist) (w : world Dist)
  : result nat * generator Dist * world Dist :=
  match g with
  | Created args =>
      let w := {| step := (step w + 1)%Z; heap := heap w |} in
      match split_inputs (ta_inputs args) with
      | Raise e => (Raise e, Finished, w)
      | Ok (x1, x2) =>
          let step1 := {| step_cls := TrainStep;
                          inputs := x1;
                          training := ta_training args;
                          mask := ta_mask args;
                          sample_shape := ta_sample_shape args;
                          iw := Some (ta_iw args);
                          elbo_kw := Some (ta_elbo_kw args);
                          parameters := vae_params self;
                          qZ_X := None |} in
          let '(a, w) := alloc step1 w in
          (Ok a, AtYield1 args x2 a, w)
      end
  | AtYield1 args x2 step1 =>
      match heap w !! step1 ≫= qZ_X with
      | None => (Raise (AttributeError "qZ_X"), Finished, w)
      | Some q =>
          let step2 := {| step_cls := FactorStep;
                          inputs := VList [x2; q];
                          training := ta_training args;
                          mask := ta_mask args;
                          sample_shape := ta_sample_shape args;
                          iw := None;
                          elbo_kw := None;
                          parameters := disc_params self;
                          qZ_X := None |} in
          let '(a, w) := alloc step2 w in
          (Ok a, AtYield2, w)
      end
  | AtYield2 => (Raise StopIteration, Finished, w)
  | Finished => (Raise StopIteration, Finished, w)
  end.

End FactorVAE.
End FactorVae.

(** ** odin/fuel/_image_base.py: partitions, samples and the dataset pipeline *)

Module ImageData.
Import Py Tf.

(** [c.isspace()] for an ASCII character. *)
Definition is_space (c : ascii) : bool :=
  let n := nat_of_ascii c in
  ((9 <=? n)%nat && (n <=? 13)%nat) || ((28 <=? n)%nat && (n <=? 32)%nat).

(** [s.lstrip()] *)
Fixpoint lstrip (s : string) : string :=
  match s with
  | EmptyString => EmptyString
  | String c rest => if is_space c then lstrip rest else s
  end.

(** [s.rstrip()] *)
Fixpoint rstrip (s : string) : string :=
  match s with
  | EmptyString => EmptyString
  | String c rest =>
      match rstrip rest with
      | EmptyString => if is_space c then EmptyString else String c EmptyString
      | rest' => String c rest'
      end
  end.

(** [s.strip()] *)
Definition strip (s : string) : string := rstrip (lstrip s).

(** A string of whitespace only. *)
Fixpoint is_blank (s : string) : bool :=
  match s with
  | EmptyString => true
  | String c rest => is_space c && is_blank rest
  end.

(** [s.startswith(prefix)] *)
Fixpoint startswith (prefix s : string) : bool :=
  match prefix, s with
  | EmptyString, _ => true
  | String _ _, EmptyString => false
  | String a prefix', String b s' => Ascii.eqb a b && startswith prefix' s'
  end.

(** [needle in haystack] *)
Fixpoint contains (needle haystack : string) : bool :=
  startswith needle haystack ||
  match haystack with
  | EmptyString => false
  | String _ rest => contains needle rest
  end.

(** [_partition] *)
Definition _partition {D} (part : string) (train valid test unlabeled : option D)
  : result D :=
  let part := strip (lower part) in
  ret ← (if contains "train" part then Ok train
         else if contains "valid" part then Ok valid
         else if contains "test" part then Ok test
         else if contains "unlabeled" part then Ok unlabeled
         else Raise (ValueError ("No support for partition with name: '" +:+ part +:+ "'")));
  match ret with
  | None => Raise (ValueError ("No data for parition with name: '" +:+ part +:+ "'"))
  | Some ret => Ok ret
  end.

(** What [_partition] answers for the data of the selected partition. *)
Definition selected {D} (part : string) (data : option D) : result D :=
  match data with
  | None => Raise (ValueError ("No data for parition with name: '" +:+ part +:+ "'"))
  | Some ret => Ok ret
  end.

(** The image datasets of the file. *)
Inductive dataset_class : Type := BinarizedMNIST | MNIST | BinarizedAlphaDigits.

(** The [labels] property: only [MNIST] overrides the empty array of
    [ImageDataset]. *)
Definition labels (cls : dataset_class) : list string :=
  match cls with
  | MNIST => map pretty (seq 0 10)
  | BinarizedMNIST | BinarizedAlphaDigits => []
  end.

(** The [n_labels] property *)
Definition n_labels (cls : dataset_class) : nat := length (labels cls).

(** The [is_binary] property: [BinarizedAlphaDigits] inherits it. *)
Definition is_binary (cls : dataset_class) : bool :=
  match cls with
  | MNIST => false
  | BinarizedMNIST | BinarizedAlphaDigits => true
  end.

(** The [shape] property *)
Definition shape (cls : dataset_class) : list Z :=
  match cls with
  | BinarizedMNIST | MNIST => [28; 28; 1]%Z
  | BinarizedAlphaDigits => [20; 16; 1]%Z
  end.

(** What the functions mapped over the dataset return: the image, the pair
    [(image, label)], or [dict(inputs=(image, label), mask=mask)]. *)
Inductive example : Type :=
| Image (image : tensor Q)
| Labelled (image label : tensor Q)
| Masked (image label : tensor Q) (mask : bool).


Definition label_of (e : example) : option (tensor Q) :=
  match e with
  | Image _ => None
  | Labelled _ label | Masked _ label _ => Some label
  end.

(** [tf.cast(ids == label, tf.float32)] for [ids = tf.range(n_labels)] and a
    scalar [label] *)
Definition one_hot (n_labels : nat) (label : Q) : tensor Q :=
  Axis (map (fun i => Scalar (if Qeq_bool (inject_Z (Z.of_nat i)) label then 1 else 0)%Q)
            (seq 0 n_labels)).

(** [a < b] on numbers *)
Definition Qlt_bool (a b : Q) : bool := negb (Qle_bool b a).

(** [_process_dict] and [_process_tuple], which differ in how they read the
    image and the label off the element: [label] is [None] when the element
    has none; [u] is the number that [gen.uniform] draws for this element.
    Casting to [float32] leaves the (exact) values as they are. *)
Definition process (binary : bool) (n_labels : nat) (inc_labels : Q) (u : Q)
    (image : tensor Q) (label : option (tensor Q)) : result example :=
  let image := if negb binary then ImageBase.normalize_255 image else image in
  if negb (Qeq_bool inc_labels 0) then
    label ← match label with
            | Some label => Ok label
            | None => Raise (KeyError "label")
            end;
    let label := match label with
                 | Scalar l => one_hot n_labels l
                 | Axis _ => label
                 end in
    if Qlt_bool 0 inc_labels && Qlt_bool inc_labels 1
    then Ok (Masked image label (Qlt_bool u inc_labels))
    else Ok (Labelled image label)
  else Ok (Image image).

(** Lines 145-150 of [create_dataset]: the value of [inc_labels] that the
    mapped function sees, for a dataset whose elements have [n_components]
    components. ([float(True)] is 1 and [float(False)] is 0.) *)
Definition effective_inc_labels (n_components : nat) (inc_labels : Q) : Q :=
  if (n_components =? 1)%nat then 0 else inc_labels.

Section SampleImages.
Context {Batch : Type}.

(** [self.create_dataset(batch_size=..., partition='train', inc_labels=False)],
    as the batches it yields in order *)
Variable create_dataset : Z -> result (list Batch).
(** [np.random.RandomState(seed=seed).choice(10)] *)
Variable choice : Z -> nat.

(** [ImageDataset.sample_images] with [save_path=None]. The integer square
    root is what [int(np.sqrt(n_samples))] gives for the numbers below [2^52];
    the square root of a negative number is [nan], which [int] refuses. *)
Definition sample_images (n_samples : Z) (seed : Z) : result Batch :=
  n ← (if (n_samples <? 0)%Z
       then Raise (ValueError "cannot convert float NaN to integer")
       else Ok (Z.sqrt n_samples));
  _ ← assert (n * n =? n_samples)%Z "Sqrt of n_samples is not an integer";
  train ← create_dataset n_samples;
  let images := take 10 train in
  match images !! choice seed with
  | Some batch => Ok batch
  | None => Raise IndexError
  end.

End SampleImages.
End ImageData.

(** ** odin/bay/layers/dense.py: sampling, repeated calls and the shortcut classes *)

Module DenseShortcuts.
Import Py Tf Dense.

(** One use of the layer: the arguments of a [call]. *)
Record call_args (Dist Num : Type) : Type := {
  ca_inputs : tensor Num;
  ca_training : option bool;
  ca_sample_shape : sample_shape_arg;
  ca_projection : bool;
  ca_prior : option Dist
}.
Arguments ca_inputs {Dist Num} _.
Arguments ca_training {Dist Num} _.
Arguments ca_sample_shape {Dist Num} _.
Arguments ca_projection {Dist Num} _.
Arguments ca_prior {Dist Num} _.

Section Shortcuts.
Context {LayerCls Dist Num : Type}.
Variable alias_class : DistributionAlias.layer_class -> LayerCls.
Variable params_size_args : LayerCls -> list string.
Variable params_size : LayerCls -> kwval -> gmap string kwval -> result Z.
Variable closures : layer_instance LayerCls -> option (gmap string kwval).
Variable Dense_call : Z -> tensor Num -> result (tensor Num).
Variable dropout : tensor Num -> Q -> option bool -> result (tensor Num).
Variable layer_call : layer_instance LayerCls -> tensor Num -> option bool -> result Dist.
Variable hasattr_prior : Dist -> bool.
(** [prior.sample(sample_shape=..., seed=...)] *)
Variable prior_sample : Dist -> sample_shape_arg -> option Z -> result (tensor Num).

(** [DenseDistribution.sample]; [class_name] is [self.__class__.__name__]. *)
Definition sample (class_name : string) (self : DenseDistribution LayerCls Dist)
    (sample_shape : sample_shape_arg) (seed : option Z) : result (tensor Num) :=
  match _prior self with
  | None => Raise (RuntimeError ("prior hasn't been provided for the " +:+ class_name))
  | Some p => prior_sample p sample_shape seed
  end.

(** The layer after a series of calls, whatever they return or raise. *)
Definition call_many (self : DenseDistribution LayerCls Dist)
    (uses : list (call_args Dist Num)) : DenseDistribution LayerCls Dist :=
  foldl (fun self u =>
           (call Dense_call dropout layer_call hasattr_prior self (ca_inputs u)
                 (ca_training u) (ca_sample_shape u) (ca_projection u) (ca_prior u)).2)
        self uses.

(** [MixtureDensityNetwork.__init__]; [prior] and [disable_projection] can
    come in through [**kwargs]. *)
Definition MixtureDensityNetwork_init (units : kwval) (n_components : Z)
    (covariance : string) (loc_activation scale_activation : kwval) (dropout_rate : Q)
    (prior : option Dist) (disable_projection : bool)
  : result (DenseDistribution LayerCls Dist) :=
  __init__ alias_class params_size_args params_size closures
    {| arg_event_shape := units;
       arg_posterior := PostAlias "mixgaussian";
       arg_posterior_kwargs :=
         {[ "n_components" := KInt n_components;
            "covariance" := KOther covariance;
            "loc_activation" := loc_activation;
            "scale_activation" := scale_activation ]};
       arg_prior := prior;
       arg_dropout := dropout_rate;
       arg_disable_projection := disable_projection |}.

(** [MixtureMassNetwork.__init__] *)
Definition MixtureMassNetwork_init (event_shape : kwval) (n_components : Z)
    (mean_activation disp_activation dispersion alternative zero_inflated : kwval)
    (dropout_rate : Q) (disable_projection : bool)
  : result (DenseDistribution LayerCls Dist) :=
  __init__ alias_class params_size_args params_size closures
    {| arg_event_shape := event_shape;
       arg_posterior := PostAlias "mixnb";
       arg_posterior_kwargs :=
         {[ "n_components" := KInt n_components;
            "mean_activation" := mean_activation;
            "disp_activation" := disp_activation;
            "dispersion" := dispersion;
            "alternative" := alternative;
            "zero_inflated" := zero_inflated ]};
       arg_prior := None;
       arg_dropout := dropout_rate;
       arg_disable_projection := disable_projection |}.

(** [DenseDeterministic.__init__] *)
Definition DenseDeterministic_init (units : Z) (dropout_rate : Q) (disable_projection : bool)
  : result (DenseDistribution LayerCls Dist) :=
  __init__ alias_class params_size_args params_size closures
    {| arg_event_shape := KInt units;
       arg_posterior := PostAlias "vdeterministic";
       arg_posterior_kwargs := ∅;
       arg_prior := None;
       arg_dropout := dropout_rate;
       arg_disable_projection := disable_projection |}.

End Shortcuts.
End DenseShortcuts.

(** ** Small concrete instances

    Stand-ins for the library calls and a few inputs, on which the statements
    below are also run. *)

Module Samples.
Import Py Tf.

(** *** For [factor_vae.py] *)

Definition w_enc : FactorVae.variable := {| FactorVae.var_id := 1; FactorVae.var_name := "encoder/kernel" |}.
Definition w_dec : FactorVae.variable := {| FactorVae.var_id := 2; FactorVae.var_name := "decoder/kernel" |}.
Definition w_disc0 : FactorVae.variable := {| FactorVae.var_id := 3; FactorVae.var_name := "discriminator/kernel" |}.
Definition w_disc1 : FactorVae.variable := {| FactorVae.var_id := 4; FactorVae.var_name := "discriminator/bias" |}.

Definition encoder : FactorVae.layer :=
  {| FactorVae.layer_name := "encoder"; FactorVae.layer_trainable_variables := [w_enc] |}.
Definition decoder : FactorVae.layer :=
  {| FactorVae.layer_name := "decoder"; FactorVae.layer_trainable_variables := [w_dec] |}.
Definition a_discriminator : FactorVae.layer :=
  {| FactorVae.layer_name := "discriminator";
     FactorVae.layer_trainable_variables := [w_disc0; w_disc1] |}.

Definition a_beta_vae : FactorVae.beta_vae :=
  {| FactorVae.tracked_layers := [encoder; decoder];
     FactorVae.latent_event_shapes := [[2%Z]];
     FactorVae.beta := 1 |}.

Definition a_FactorDiscriminator (latent_dim : Z) (config : gmap string Z) : FactorVae.layer :=
  a_discriminator.

Definition a_vae : FactorVae.FactorVAE :=
  {| FactorVae.base := a_beta_vae;
     FactorVae.gamma := 10;
     FactorVae.discriminator := a_discriminator;
     FactorVae.disc_params := [w_disc0; w_disc1];
     FactorVae.vae_params := [w_enc; w_dec] |}.

Definition batch_of (rows : list Q) : FactorVae.value unit :=
  FactorVae.VTensor (Axis (map Scalar rows)).

Definition args_on (inputs : FactorVae.value unit) : FactorVae.train_args unit :=
  {| FactorVae.ta_inputs := inputs;
     FactorVae.ta_training := FactorVae.VBool true;
     FactorVae.ta_mask := FactorVae.VNone;
     FactorVae.ta_sample_shape := [];
     FactorVae.ta_iw := false;
     FactorVae.ta_elbo_kw := ∅ |}.

Definition even_batch : FactorVae.train_args unit := args_on (batch_of [1; 2; 3; 4]%Q).


Definition new_world : FactorVae.world unit := {| FactorVae.step := 0; FactorVae.heap := ∅ |}.

Definition a_total_correlation (d : FactorVae.layer) (qZ_X training : FactorVae.value unit)
  : result (tensor Q) := Ok (Axis [Scalar 1; Scalar 2]%Q).

Definition a_dtc_loss (d : FactorVae.layer) (qZ_X qZ_Xprime training : FactorVae.value unit)
  : result (tensor Q) := Ok (Scalar 0%Q).

Definition a_super_elbo (b : FactorVae.beta_vae) (X pX_Z qZ_X : FactorVae.value unit)
    (analytic reverse : bool) (sample_shape : list Z)
  : result (tensor Q * gmap string (tensor Q)) :=
  Ok (Scalar 5%Q, {[ "kl" := Scalar 3%Q ]}).

Definition an_encode (vae : FactorVae.FactorVAE) (inputs training mask : FactorVae.value unit)
    (sample_shape : list Z) : result (FactorVae.value unit) := Ok (FactorVae.VDist tt).

(** *** For [dense.py]: a distribution is given by its parameters. *)








Definition a_kl_helper (q : Dense.posterior_obj (tensor Q)) (p : tensor Q)
    (analytic reverse : bool) (q_sample : Dense.sample_shape_arg)
    (auto_remove_independent : bool) : result (tensor Q) :=
  Ok (if analytic then Axis [Scalar 7; Scalar 8]%Q
      else Axis [Axis [Scalar 7; Scalar 8]; Axis [Scalar 6; Scalar 9]]%Q).


Definition a_dense : Dense.DenseDistribution DistributionAlias.layer_class (tensor Q) :=
  {| Dense.units := 6;
     Dense._convert_to_tensor_fn := Dense.Distribution_sample;
     Dense._posterior := Dense.PostAlias "normal";
     Dense._prior := Some (Scalar 0%Q);
     Dense._event_shape := Dense.KShape [3%Z];
     Dense._posterior_class := DistributionAlias.NormalLayer;
     Dense._posterior_kwargs := ∅;
     Dense._dropout := 0;
     Dense._disable_projection := false;
     Dense._last_distribution := None |}.

Definition a_posterior : Dense.posterior_obj (tensor Q) :=
  {| Dense.distribution := Axis [Scalar 2; Scalar 4]%Q;
     Dense.attr_KL_divergence := None;
     Dense.attr_prior := Some None |}.

Definition a_called_dense : Dense.DenseDistribution DistributionAlias.layer_class (tensor Q) :=
  Dense.set_last_distribution a_dense a_posterior.

(** *** For [fast_tsne.py]: rows are numbers, the generator has no state and
    its permutation is the identity, the embedding of an array is the array. *)

Definition a_md5 (x : list nat) : string := pretty (length x) +:+ ":" +:+ pretty (foldr Nat.add 0%nat x).

Definition a_RandomState (seed : FastTsne.pyval) : unit := tt.

Definition a_permutation (rand : unit) (n : nat) : list nat * unit := (seq 0 n, rand).

Definition a_fit_transform (v : FastTsne.backend) (kwargs : gmap string FastTsne.pyval)
    (x : list nat) : list nat * unit := (x, tt).

Definition two_arrays : list (FastTsne.arg nat) :=
  [FastTsne.NdArray [10; 11; 12; 13; 14]%nat; FastTsne.NdArray [20; 21]%nat].

Definition one_array : list (FastTsne.arg nat) := [FastTsne.NdArray [10; 11; 12]%nat].

Definition call_with (n_samples : option Z) (kwargs : gmap string FastTsne.pyval)
  : FastTsne.arguments :=
  {| FastTsne.n_samples := n_samples;
     FastTsne.combined := true;
     FastTsne.return_model := false;
     FastTsne.force_sklearn := false;
     FastTsne.given_kwargs := kwargs |}.

Definition empty_cache : FastTsne.state nat :=
  {| FastTsne._cached_values := ∅; FastTsne.fit_calls := 0 |}.

Definition a_fast_tsne :=
  FastTsne.fast_tsne a_md5 a_RandomState a_permutation false false a_fit_transform.

End Samples.

(** * Properties *)

(** ** The exception monad, strings and tensors *)

Module PyFacts.
Import Py Tf.

Ltac unfold_result :=
  unfold mbind, result_bind, fmap, result_fmap, mret, result_ret, bind in *.

Lemma bind_Ok {A B} (k : A -> result B) (c : result A) (b : B) :
  c ≫= k = Ok b -> exists a, c = Ok a /\ k a = Ok b.
Proof. destruct c as [a|e]; unfold_result; [eauto | discriminate]. Qed.

Lemma append_cons (ch : ascii) (a b : string) : String ch a +:+ b = String ch (a +:+ b).
Proof. reflexivity. Qed.

Lemma append_assoc (a b c : string) : (a +:+ b) +:+ c = a +:+ b +:+ c.
Proof.
  induction a as [|ch a IH]; [reflexivity|]. rewrite !append_cons. now rewrite IH.
Qed.

Lemma occurs_in_refl (s : string) : occurs_in s s.
Proof.
  exists "", "". change ("" +:+ s +:+ "") with (s +:+ "").
  induction s as [|ch s IH]; [reflexivity | rewrite append_cons; now rewrite <- IH].
Qed.

Lemma occurs_in_prepend (k p s : string) : occurs_in k s -> occurs_in k (p +:+ s).
Proof.
  intros (before & after & ->). exists (p +:+ before), after.
  now rewrite append_assoc.
Qed.

Lemma occurs_in_append (k s q : string) : occurs_in k s -> occurs_in k (s +:+ q).
Proof.
  intros (before & after & ->). exists before, (after +:+ q).
  now rewrite !append_assoc.
Qed.

Lemma occurs_in_join (sep k : string) (items : list string) :
  k ∈ items -> occurs_in k (join sep items).
Proof.
  induction items as [|x rest IH]; intros Hin.
  - inversion Hin.
  - destruct rest as [|y rest].
    + apply list_elem_of_singleton in Hin as ->. apply occurs_in_refl.
    + change (join sep (x :: y :: rest)) with (x +:+ sep +:+ join sep (y :: rest)).
      apply elem_of_cons in Hin as [-> | Hin].
      * apply occurs_in_append, occurs_in_refl.
      * apply occurs_in_prepend, occurs_in_prepend, IH, Hin.
Qed.

(** Induction on tensors that reaches the entries of an axis. *)
Lemma tensor_rect' {A} (P : tensor A -> Prop)
    (HScalar : forall x, P (Scalar x))
    (HAxis : forall items, Forall P items -> P (Axis items)) :
  forall t, P t.
Proof.
  fix IH 1. intros [x | items].
  - apply HScalar.
  - apply HAxis. induction items as [|t rest IHrest]; constructor; [apply IH | exact IHrest].
Qed.


(** Repeating every axis once leaves a tensor as it is. *)
Lemma tile_ones {A} (t : tensor A) (k : nat) : tile t (replicate k 1%Z) = t.
Proof.
  revert k. induction t as [x | items IH] using tensor_rect'; intros k; simpl; [reflexivity|].
  destruct k as [|k]; simpl; [reflexivity|].
  rewrite app_nil_r. f_equal.
  induction IH as [|t rest Ht _ IHrest]; simpl; [reflexivity|].
  now rewrite Ht, IHrest.
Qed.

End PyFacts.

(** ** odin/bay/distribution_alias.py *)

Module DistributionAliasSpec.
Import Py PyFacts DistributionAlias.

Lemma not_found_message_names (alias : string) (available : list string) :
  occurs_in alias (not_found_message alias available) /\
  forall k, k ∈ available -> occurs_in k (not_found_message alias available).
Proof.
  unfold not_found_message. split.
  - apply occurs_in_prepend, occurs_in_append, occurs_in_refl.
  - intros k Hk. do 3 apply occurs_in_prepend. now apply occurs_in_join.
Qed.

(** Over any table: a key gives its entry, anything else the [ValueError]
    whose message has the alias and every key in it. *)
Lemma parse_distribution_in_spec {V} (mapping : list (string * V)) (alias : string) :
  match getitem mapping (lower alias) with
  | Some found => parse_distribution_in mapping alias = Ok found
  | None =>
      exists msg, parse_distribution_in mapping alias = Raise (ValueError msg) /\
                  occurs_in (lower alias) msg /\
                  forall k, k ∈ keys mapping -> occurs_in k msg
  end.
Proof.
  unfold parse_distribution_in. destruct (getitem mapping (lower alias)) as [found|].
  - reflexivity.
  - eexists. split; [reflexivity|]. apply not_found_message_names.
Qed.

(** Every alias of the table, as it is written there, gives its own pair. *)
Lemma registered_aliases_parse :
  Forall (fun entry => parse_distribution entry.1 = Ok entry.2) _dist_mapping.
Proof. repeat constructor. Qed.

(** The aliases the table has: each of the 19 names once. *)
Lemma registered_keys :
  keys _dist_mapping =
  [ "bern"; "bernoulli"; "zibernoulli"; "zeroinflatedbernoulli"; "normal"; "gaussian";
    "lognormal"; "nb"; "negativebinomial"; "zinb"; "zinegativebinomial";
    "zeroinflatednegativebinomial"; "pois"; "poisson"; "zipois"; "zipoisson";
    "zeroinflatedpoisson"; "dirichlet"; "onehot" ].
Proof. reflexivity. Qed.

(** C5. [parse_distribution] lower-cases its argument. If the lower-cased
    alias is a key of the table, the pair registered for it is returned; this
    gives every registered alias its own (layer class, distribution class)
    pair. If it is not a key, a [ValueError] is raised whose message contains
    the (lower-cased) alias and every alias of the table. *)
Theorem parse_distribution_spec (alias : string) :
  (forall found, getitem _dist_mapping (lower alias) = Some found ->
                 parse_distribution alias = Ok found) /\
  (forall k found, (k, found) ∈ _dist_mapping -> parse_distribution k = Ok found) /\
  (getitem _dist_mapping (lower alias) = None ->
   exists msg, parse_distribution alias = Raise (ValueError msg) /\
               occurs_in (lower alias) msg /\
               forall k, k ∈ keys _dist_mapping -> occurs_in k msg).
Proof.
  pose proof (parse_distribution_in_spec _dist_mapping alias) as H.
  fold parse_distribution in H. split; [|split].
  - intros found Hfound. now rewrite Hfound in H.
  - intros k found Hin.
    pose proof registered_aliases_parse as Hall.
    rewrite Forall_forall in Hall. exact (Hall (k, found) Hin).
  - intros Hnone. now rewrite Hnone in H.
Qed.

Lemma parse_distribution_spec_witness :
  parse_distribution "Gaussian" = Ok (NormalLayer, Normal) /\
  parse_distribution "zinb" = Ok (ZeroInflatedNegativeBinomialLayer, NegativeBinomial) /\
  exists msg, parse_distribution "Beta" = Raise (ValueError msg) /\
              occurs_in "beta" msg /\ occurs_in "onehot" msg.
Proof.
  split; [|split].
  - destruct (parse_distribution_spec "Gaussian") as (H & _ & _).
    apply H. reflexivity.
  - destruct (parse_distribution_spec "zinb") as (_ & H & _).
    apply H. unfold _dist_mapping. simpl. do 9 right. left.
  - destruct (parse_distribution_spec "Beta") as (_ & _ & H).
    destruct (H eq_refl) as (msg & Hraise & Halias & Hkeys).
    exists msg. split; [exact Hraise|]. split; [exact Halias|].
    apply Hkeys. rewrite registered_keys. do 18 right. left.
Defined.

(** The aliases the claim names. *)
Example parse_distribution_examples :
  parse_distribution "bern" = Ok (BernoulliLayer, Bernoulli) /\
  parse_distribution "bernoulli" = Ok (BernoulliLayer, Bernoulli) /\
  parse_distribution "normal" = Ok (NormalLayer, Normal) /\
  parse_distribution "gaussian" = Ok (NormalLayer, Normal) /\
  parse_distribution "pois" = Ok (PoissonLayer, Poisson) /\
  parse_distribution "dirichlet" = Ok (DirichletLayer, Dirichlet) /\
  parse_distribution "onehot" = Ok (OneHotCategoricalLayer, OneHotCategorical) /\
  parse_distribution "OneHot" = Ok (OneHotCategoricalLayer, OneHotCategorical).
Proof. repeat split. Qed.

End DistributionAliasSpec.

(** ** odin/fuel/_image_base.py *)

Module ImageBaseSpec.
Import Py Tf PyFacts ImageBase.





(** Black, white and a grey pixel. *)
Example normalize_255_pixels :
  normalize_255 (Axis [Scalar 0; Scalar 255; Scalar 51]%Q)
  = Axis [Scalar (1 # 1000000); Scalar (999999 # 1000000); Scalar (51 # 255)]%Q.
Proof. reflexivity. Qed.

End ImageBaseSpec.

(** ** odin/bay/vi/autoencoder/factor_vae.py *)

Module FactorVaeSpec.
Import Py Tf PyFacts FactorVae.

(** *** The two parameter sets *)

Lemma init_fields (FD : Z -> gmap string Z -> layer) (b : beta_vae)
    (d : discriminator_arg) (g : Q) (self : FactorVAE) :
  __init__ FD b d g = Ok self ->
  base self = b /\
  disc_params self = layer_trainable_variables (discriminator self) /\
  vae_params self =
    filter (fun p => var_id p ∉ (list_to_set (map var_id (disc_params self)) : gset nat))
           (trainable_variables b [discriminator self]).
Proof.
  unfold __init__. intros H. apply bind_Ok in H as (dim & _ & H).
  injection H as <-. simpl. auto.
Qed.

(** C6. After [__init__], [disc_params] is the list of the discriminator's
    trainable variables; [vae_params] holds exactly the trainable variables
    of the model whose identity is not that of a discriminator variable; no
    identity is in both lists; every trainable variable of the model is in
    [vae_params] or is (by identity) a discriminator variable, and the
    discriminator variables are trainable variables of the model. *)
Theorem init_partitions_parameters (FD : Z -> gmap string Z -> layer) (b : beta_vae)
    (d : discriminator_arg) (g : Q) (self : FactorVAE) :
  __init__ FD b d g = Ok self ->
  let all := trainable_variables (base self) [discriminator self] in
  disc_params self = layer_trainable_variables (discriminator self) /\
  (forall p, p ∈ vae_params self <->
             p ∈ all /\ var_id p ∉ map var_id (disc_params self)) /\
  (forall p q, p ∈ vae_params self -> q ∈ disc_params self -> var_id p <> var_id q) /\
  (forall p, p ∈ all -> p ∈ vae_params self \/ var_id p ∈ map var_id (disc_params self)) /\
  (forall q, q ∈ disc_params self -> q ∈ all).
Proof.
  intros H all. apply init_fields in H as (Hbase & Hdisc & Hvae).
  subst all. rewrite Hbase.
  assert (Hmem : forall p, p ∈ vae_params self <->
             p ∈ trainable_variables b [discriminator self] /\
             var_id p ∉ map var_id (disc_params self)).
  { intros p. rewrite Hvae, list_elem_of_filter, elem_of_list_to_set. tauto. }
  split; [exact Hdisc|]. split; [exact Hmem|]. split; [|split].
  - intros p q Hp Hq Heq. apply Hmem in Hp as [_ Hp]. apply Hp.
    rewrite Heq. apply list_elem_of_fmap. eauto.
  - intros p Hp.
    destruct (decide (var_id p ∈ map var_id (disc_params self))) as [Hin|Hout];
      [right; exact Hin | left; apply Hmem; auto].
  - intros q Hq. unfold trainable_variables.
    apply list_elem_of_In, in_flat_map. exists (discriminator self). split.
    + apply in_or_app. right. left. reflexivity.
    + apply list_elem_of_In. now rewrite <- Hdisc.
Qed.

(** *** Total correlation *)

Section TotalCorrelation.
Context {Dist : Type}.
Variable disc_total_correlation : layer -> value Dist -> value Dist -> result (tensor Q).
Variable super_elbo :
  beta_vae -> value Dist -> value Dist -> value Dist -> bool -> bool -> list Z ->
  result (tensor Q * gmap string (tensor Q)).

(** C4. [total_correlation] is the discriminator's estimate for [qZ_X], every
    entry multiplied by [gamma] when [scaled_by_gamma] is set and as it is
    otherwise; [_elbo] returns the log-likelihood of the parent class and the
    parent's divergences with the entry ['tc'] set to the gamma-scaled total
    correlation, the other entries being those of the parent. *)
Theorem total_correlation_and_elbo (self : FactorVAE) (X pX_Z qZ_X mask training : value Dist)
    (analytic reverse : bool) (sample_shape : list Z)
    (tc llk : tensor Q) (div : gmap string (tensor Q)) :
  disc_total_correlation (discriminator self) qZ_X training = Ok tc ->
  super_elbo (base self) X pX_Z qZ_X analytic reverse sample_shape = Ok (llk, div) ->
  total_correlation disc_total_correlation self qZ_X true training
    = Ok (tmap (Qmult (gamma self)) tc) /\
  total_correlation disc_total_correlation self qZ_X false training = Ok tc /\
  exists div',
    _elbo disc_total_correlation super_elbo self X pX_Z qZ_X analytic reverse sample_shape
          mask training = Ok (llk, div') /\
    div' !! "tc" = Some (tmap (Qmult (gamma self)) tc) /\
    forall k, k <> "tc" -> div' !! k = div !! k.
Proof.
  intros Htc Helbo. unfold _elbo, total_correlation. rewrite Htc, Helbo.
  split; [reflexivity|]. split; [reflexivity|].
  eexists. split; [reflexivity|]. split.
  - apply lookup_insert_eq.
  - intros k Hk. now apply lookup_insert_ne.
Qed.

End TotalCorrelation.

(** *** The discriminator step *)

Lemma training_is_unbound {Dist} : @load_global Dist "training" = Raise (NameError "training").
Proof. vm_compute. reflexivity. Qed.

Section FactorStep.
Context {Dist : Type}.
Variable disc_dtc_loss :
  layer -> value Dist -> value Dist -> value Dist -> result (tensor Q).
Variable encode :
  FactorVAE -> value Dist -> value Dist -> value Dist -> list Z -> result (value Dist).

(** C8. [FactorStep.__call__] never returns: if its inputs unpack into two
    values and [encode] returns, evaluating the keyword argument
    [training=training] raises [NameError], before [dtc_loss] is called; this
    is so for the inputs [[x2, qZ_X]] that [train_steps] gives the step. *)
Theorem FactorStep_call_raises_NameError (self : step_obj Dist) (vae : FactorVAE) :
  (forall r, FactorStep_call disc_dtc_loss encode self vae <> Ok r) /\
  (forall x q qZ_Xprime,
      unpack2 (inputs self) = Ok (x, q) ->
      encode vae x (training self) (mask self) (sample_shape self) = Ok qZ_Xprime ->
      FactorStep_call disc_dtc_loss encode self vae = Raise (NameError "training")) /\
  (forall x2 q qZ_Xprime,
      inputs self = VList [x2; q] ->
      encode vae x2 (training self) (mask self) (sample_shape self) = Ok qZ_Xprime ->
      FactorStep_call disc_dtc_loss encode self vae = Raise (NameError "training")).
Proof.
  assert (Hmain : forall x q qZ_Xprime,
      unpack2 (inputs self) = Ok (x, q) ->
      encode vae x (training self) (mask self) (sample_shape self) = Ok qZ_Xprime ->
      FactorStep_call disc_dtc_loss encode self vae = Raise (NameError "training")).
  { intros x q q' Hunpack Henc. unfold FactorStep_call.
    rewrite Hunpack. unfold_result. rewrite Henc, training_is_unbound. reflexivity. }
  split; [|split].
  - intros r Hr. unfold FactorStep_call in Hr.
    destruct (unpack2 (inputs self)) as [[x q]|e] eqn:Hunpack; [|discriminate].
    unfold_result.
    destruct (encode vae x (training self) (mask self) (sample_shape self)) eqn:Henc;
      [|discriminate].
    rewrite training_is_unbound in Hr. discriminate.
  - exact Hmain.
  - intros x2 q q' Hinputs Henc. apply (Hmain x2 q q'); [|exact Henc].
    rewrite Hinputs. reflexivity.
Qed.

End FactorStep.

(** *** The generator *)

Section TrainSteps.
Context {Dist : Type}.



End TrainSteps.

(** *** The statements on the sample model *)

Import Samples.

Lemma init_partitions_parameters_witness :
  __init__ a_FactorDiscriminator a_beta_vae (DiscConfig ∅) 10 = Ok a_vae /\
  (forall p q, p ∈ vae_params a_vae -> q ∈ disc_params a_vae -> var_id p <> var_id q) /\
  (forall p, p ∈ trainable_variables a_beta_vae [a_discriminator] ->
             p ∈ vae_params a_vae \/ var_id p ∈ map var_id (disc_params a_vae)).
Proof.
  assert (H : __init__ a_FactorDiscriminator a_beta_vae (DiscConfig ∅) 10 = Ok a_vae)
    by (vm_compute; reflexivity).
  split; [exact H|].
  destruct (init_partitions_parameters _ _ _ _ _ H) as (_ & _ & Hdisjoint & Hcover & _).
  split; [exact Hdisjoint | exact Hcover].
Defined.

Lemma total_correlation_and_elbo_witness :
  total_correlation a_total_correlation a_vae VNone true VNone
    = Ok (tmap (Qmult 10) (Axis [Scalar 1; Scalar 2]%Q)) /\
  exists div',
    _elbo a_total_correlation a_super_elbo a_vae VNone VNone VNone true true [] VNone VNone
      = Ok (Scalar 5%Q, div') /\
    div' !! "tc" = Some (tmap (Qmult 10) (Axis [Scalar 1; Scalar 2]%Q)) /\
    div' !! "kl" = Some (Scalar 3%Q).
Proof.
  destruct (total_correlation_and_elbo a_total_correlation a_super_elbo a_vae
              VNone VNone VNone VNone VNone true true []
              (Axis [Scalar 1; Scalar 2]%Q) (Scalar 5%Q) {[ "kl" := Scalar 3%Q ]}
              eq_refl eq_refl)
    as (Hscaled & _ & div' & Helbo & Htc & Hother).
  split; [exact Hscaled|]. exists div'. split; [exact Helbo|]. split; [exact Htc|].
  rewrite Hother by discriminate. reflexivity.
Defined.

Lemma FactorStep_call_raises_NameError_witness :
  FactorStep_call a_dtc_loss an_encode
    (second_step a_vae even_batch (Axis [Scalar 3; Scalar 4]%Q) (VDist tt)) a_vae
  = Raise (NameError "training").
Proof.
  destruct (FactorStep_call_raises_NameError a_dtc_loss an_encode
              (second_step a_vae even_batch (Axis [Scalar 3; Scalar 4]%Q) (VDist tt)) a_vae)
    as (_ & _ & H).
  eapply H; reflexivity.
Defined.



(** Resumed before the first step has recorded [qZ_X], the generator ends
    with the [AttributeError] of [step1.qZ_X]. *)
Example train_steps_resumed_early :
  let '(_, g, w) := next a_vae (train_steps even_batch) new_world in
  (next a_vae g w).1 = (Raise (AttributeError "qZ_X"), Finished).
Proof. reflexivity. Qed.

End FactorVaeSpec.

(** ** odin/bay/layers/dense.py *)

Module DenseSpec.
Import Py Tf PyFacts Dense.

Lemma concat_replicate_singleton {A} (n : nat) (x : A) :
  concat (replicate n [x]) = replicate n x.
Proof. induction n as [|n IH]; simpl; [reflexivity | now rewrite IH]. Qed.

(** Tiling a tensor with a new leading axis [n] times along that axis, and
    once along the others, stacks [n] copies of it. *)
Lemma tile_expand_dims {A} (t : tensor A) (n : Z) (k : nat) :
  tile (expand_dims0 t) (n :: replicate k 1%Z) = Axis (replicate (Z.to_nat n) t).
Proof.
  unfold expand_dims0. simpl. rewrite tile_ones.
  now rewrite concat_replicate_singleton.
Qed.

Section Spec.
Context {LayerCls Dist Num : Type}.
Variable alias_class : DistributionAlias.layer_class -> LayerCls.
Variable params_size_args : LayerCls -> list string.
Variable params_size : LayerCls -> kwval -> gmap string kwval -> result Z.
Variable closures : layer_instance LayerCls -> option (gmap string kwval).
Variable Dense_call : Z -> tensor Num -> result (tensor Num).
Variable dropout : tensor Num -> Q -> option bool -> result (tensor Num).
Variable layer_call : layer_instance LayerCls -> tensor Num -> option bool -> result Dist.
Variable hasattr_prior : Dist -> bool.
Variable helpers_kl_divergence :
  posterior_obj Dist -> Dist -> bool -> bool -> sample_shape_arg -> bool -> result (tensor Num).

(** C2. With a posterior from an earlier call and a prior (given, or else the
    stored one): for [analytic=True] the helper is asked for the closed form
    and the result is a tensor with a new leading axis that holds the
    divergence once, or [sample_shape] times when [sample_shape] is a number
    above 1; for [analytic=False] the helper is asked for the estimate from
    [sample_shape] samples and its result is returned as it is. *)
Theorem kl_divergence_spec (self : DenseDistribution LayerCls Dist)
    (prior_arg : option Dist) (sample_shape : sample_shape_arg) (reverse : bool)
    (q : posterior_obj Dist) (p : Dist) :
  posterior self = Some q ->
  match prior_arg with None => _prior self | Some given => Some given end = Some p ->
  (forall kl, helpers_kl_divergence q p true reverse sample_shape true = Ok kl ->
     kl_divergence helpers_kl_divergence self prior_arg true sample_shape reverse
       = Ok (Axis (replicate (copies sample_shape) kl)) /\
     (1 <= copies sample_shape)%nat /\
     (forall n, sample_shape = SInt n -> (1 < n)%Z -> copies sample_shape = Z.to_nat n)) /\
  (forall kl, helpers_kl_divergence q p false reverse sample_shape true = Ok kl ->
     kl_divergence helpers_kl_divergence self prior_arg false sample_shape reverse = Ok kl).
Proof.
  intros Hq Hp. unfold kl_divergence. rewrite Hp, Hq. split.
  - intros kl Hkl. rewrite Hkl. unfold_result. split; [|split].
    + destruct sample_shape as [n|dims]; simpl; [|reflexivity].
      destruct (1 <? n)%Z eqn:Hn; [|reflexivity].
      f_equal. apply (tile_expand_dims kl n).
    + destruct sample_shape as [n|dims]; simpl; [|lia].
      destruct (1 <? n)%Z eqn:Hn; [apply Z.ltb_lt in Hn|]; lia.
    + intros n -> Hn. simpl. apply Z.ltb_lt in Hn. now rewrite Hn.
  - intros kl Hkl. rewrite Hkl. reflexivity.
Qed.




End Spec.
(** *** The statements on the sample layer *)

Import Samples.

Lemma kl_divergence_spec_witness :
  kl_divergence a_kl_helper a_called_dense None true (SInt 3) true
    = Ok (Axis (replicate 3 (Axis [Scalar 7; Scalar 8]%Q))) /\
  kl_divergence a_kl_helper a_called_dense None false (SInt 3) true
    = Ok (Axis [Axis [Scalar 7; Scalar 8]; Axis [Scalar 6; Scalar 9]]%Q).
Proof.
  destruct (kl_divergence_spec a_kl_helper a_called_dense None (SInt 3) true
              a_posterior (Scalar 0%Q) eq_refl eq_refl) as [Hanalytic Hsampled].
  split.
  - destruct (Hanalytic _ eq_refl) as [H _]. exact H.
  - exact (Hsampled _ eq_refl).
Defined.


End DenseSpec.

(** ** odin/ml/fast_tsne.py *)

Module FastTsneSpec.
Import Py Tf PyFacts FastTsne.

Section Downsampling.
Context {Row ERow Model Rng : Type}.
Variable RandomState : pyval -> Rng.
Variable permutation : Rng -> nat -> list nat * Rng.
Variable cuml_installed multicore_installed : bool.

(** [permutation(n)] returns the numbers below [n] in some order. *)
Hypothesis permutation_permutes : forall rand n, (permutation rand n).1 ≡ₚ seq 0 n.

Lemma take_rows_ok (x : list Row) (ids : list nat) :
  Forall (fun i => (i < length x)%nat) ids ->
  exists x', take_rows x ids = Ok x' /\ Forall2 (fun i r => x !! i = Some r) ids x'.
Proof.
  unfold take_rows. induction 1 as [|i ids Hi _ (x' & Hx' & Hall)]; simpl.
  - exists []. split; [reflexivity | constructor].
  - destruct (lookup_lt_is_Some_2 x i Hi) as [r Hr]. rewrite Hr, Hx'.
    exists (r :: x'). split; [reflexivity | now constructor].
Qed.

Lemma permutation_prefix (rand : Rng) (m n : nat) :
  (n < m)%nat ->
  let ids := take n (permutation rand m).1 in
  NoDup ids /\ length ids = n /\ Forall (fun i => (i < m)%nat) ids.
Proof.
  intros Hn ids. pose proof (permutation_permutes rand m) as Hperm.
  split; [|split].
  - eapply sublist_NoDup; [|apply sublist_take].
    rewrite Hperm. apply NoDup_seq.
  - subst ids. rewrite length_take, Hperm, length_seq. lia.
  - apply Forall_take. rewrite Hperm. apply Forall_forall.
    intros i Hi. apply elem_of_seq in Hi. lia.
Qed.

Lemma downsample_loop_spec (n : nat) (X : list (list Row)) (rand : Rng) :
  exists new_X,
    downsample_loop permutation n rand X = Ok new_X /\
    Forall2 (sampled_or_same permutation n) X new_X.
Proof.
  revert rand. induction X as [|x rest IH]; intros rand; simpl.
  - exists []. split; [reflexivity | constructor].
  - destruct (n <? length x)%nat eqn:Hlt.
    + apply Nat.ltb_lt in Hlt.
      destruct (permutation_prefix rand (length x) n Hlt) as (Hnodup & Hlen & Hbound).
      destruct (permutation rand (length x)) as [perm rand'] eqn:Hperm. simpl in *.
      destruct (take_rows_ok x (take n perm) Hbound) as (x' & Hx' & Hrows).
      destruct (IH rand') as (new_X & Hnew & Hall).
      rewrite Hx'. unfold_result. rewrite Hnew.
      exists (x' :: new_X). split; [reflexivity|]. constructor; [|exact Hall].
      unfold sampled_or_same. apply Nat.ltb_lt in Hlt. rewrite Hlt. split.
      * rewrite <- (Forall2_length _ _ _ Hrows). exact Hlen.
      * exists rand, (take n perm). rewrite Hperm. auto.
    + destruct (IH rand) as (new_X & Hnew & Hall). rewrite Hnew.
      exists (x :: new_X). split; [reflexivity|]. constructor; [|exact Hall].
      unfold sampled_or_same. now rewrite Hlt.
Qed.

Lemma check_inputs_rejects (X : list (arg Row)) (x : arg Row) :
  X <> [] -> x ∈ unwrap_sequence X -> as_ndarray x = None ->
  check_inputs X
    = Raise (ValueError "`X` can only be list of numpy.ndarray or numpy.ndarray").
Proof.
  intros Hne Hin Hnot. unfold check_inputs.
  destruct X as [|x0 X]; [contradiction|]. simpl length. simpl assert.
  unfold_result.
  destruct (forallb _ (unwrap_sequence (x0 :: X))) eqn:Hall; [|reflexivity].
  rewrite forallb_forall in Hall. apply list_elem_of_In, Hall in Hin.
  apply bool_decide_eq_true in Hin. rewrite Hnot in Hin. now destruct Hin.
Qed.

(** C7. With [n_samples] a positive integer, the arrays that go on to the
    embedding are the input arrays, in order, where each array with more than
    [n_samples] rows is replaced by [n_samples] of its rows, those at the
    first [n_samples] indices of a permutation drawn from the generator
    seeded with [random_state], and each other array is unchanged. If an
    element of [X] (of [X[0]] when that is a tuple or a list) is not an
    array, [ValueError] is raised and the module state is left as it is. *)
Theorem downsampling_and_input_check (md5_checksum : list Row -> string)
    (fit_transform : backend -> gmap string pyval -> list Row -> list ERow * Model)
    (X : list (arg Row)) (a : arguments) :
  dom (given_kwargs a) ⊆ dom default_kwargs ->
  (forall arrays n,
      check_inputs X = Ok arrays -> n_samples a = Some n -> (0 < n)%Z ->
      exists new_X,
        prepare RandomState permutation cuml_installed multicore_installed X a
          = Ok (new_X,
                select_backend cuml_installed multicore_installed (force_sklearn a),
                modify_kwargs
                  (select_backend cuml_installed multicore_installed (force_sklearn a))
                  (given_kwargs a ∪ default_kwargs)) /\
        Forall2 (sampled_or_same permutation (Z.to_nat n)) arrays new_X) /\
  (forall x st,
      X <> [] -> x ∈ unwrap_sequence X -> as_ndarray x = None ->
      fast_tsne md5_checksum RandomState permutation cuml_installed multicore_installed
                fit_transform X a st
        = (Raise (ValueError "`X` can only be list of numpy.ndarray or numpy.ndarray"), st)).
Proof.
  intros Hdom. split.
  - intros arrays n Hcheck Hn Hpos. unfold prepare.
    rewrite bool_decide_eq_true_2 by exact Hdom. rewrite Hcheck. unfold_result.
    unfold downsample. rewrite Hn. apply Z.ltb_lt in Hpos. rewrite Hpos. simpl.
    destruct (downsample_loop_spec (Z.to_nat n) arrays
                (RandomState (default PNone ((given_kwargs a ∪ default_kwargs) !! "random_state"))))
      as (new_X & Hnew & Hall).
    rewrite Hnew. exists new_X. split; [reflexivity | exact Hall].
  - intros x st Hne Hin Hnot. unfold fast_tsne, prepare.
    rewrite bool_decide_eq_true_2 by exact Hdom.
    rewrite (check_inputs_rejects X x Hne Hin Hnot). reflexivity.
Qed.

End Downsampling.
Section Caching.
Context {Row ERow Model Rng : Type}.
Variable md5_checksum : list Row -> string.
Variable RandomState : pyval -> Rng.
Variable permutation : Rng -> nat -> list nat * Rng.
Variable cuml_installed multicore_installed : bool.
Variable fit_transform : backend -> gmap string pyval -> list Row -> list ERow * Model.

Local Abbreviation prepare' := (prepare RandomState permutation cuml_installed multicore_installed).
Local Abbreviation lookup_one' := (lookup_one md5_checksum).
Local Abbreviation lookup_each' := (lookup_each md5_checksum).
Local Abbreviation lookup_cached' := (lookup_cached md5_checksum).
Local Abbreviation run_sequential' := (run_sequential fit_transform).
Local Abbreviation run_mpi' := (run_mpi fit_transform).
Local Abbreviation perform' := (perform fit_transform).
Local Abbreviation fast_tsne' :=
  (fast_tsne md5_checksum RandomState permutation cuml_installed multicore_installed
             fit_transform).

(** The key is made from the dictionary without [verbose]. *)
Lemma create_key_ignores_verbose (k1 k2 : gmap string pyval) :
  agree_except_verbose k1 k2 ->
  is_Some (k1 !! "verbose") -> is_Some (k2 !! "verbose") ->
  forall framework md5, _create_key framework k1 md5 = _create_key framework k2 md5.
Proof.
  intros Hagree [v1 H1] [v2 H2] framework md5. unfold _create_key. rewrite H1, H2.
  assert (Hdel : delete "verbose" k1 = delete "verbose" k2).
  { apply map_eq. intros k. destruct (decide (k = "verbose")) as [->|Hne].
    - now rewrite !lookup_delete_eq.
    - rewrite !lookup_delete_ne by congruence. now apply Hagree. }
  now rewrite Hdel.
Qed.

Lemma agree_union (g1 g2 d : gmap string pyval) :
  agree_except_verbose g1 g2 -> agree_except_verbose (g1 ∪ d) (g2 ∪ d).
Proof.
  intros Hagree k Hk. rewrite !lookup_union, (Hagree k Hk). reflexivity.
Qed.

Lemma agree_modify (ver : backend) (k1 k2 : gmap string pyval) :
  agree_except_verbose k1 k2 ->
  agree_except_verbose (modify_kwargs ver k1) (modify_kwargs ver k2).
Proof.
  intros Hagree k Hk.
  destruct ver; simpl; try (now apply Hagree);
    (destruct (decide (k = "n_jobs")) as [->|Hne];
     [now rewrite !lookup_delete_eq
     |rewrite !lookup_delete_ne by congruence; now apply Hagree]).
Qed.

Lemma verbose_is_set (ver : backend) (g : gmap string pyval) :
  is_Some (modify_kwargs ver (g ∪ default_kwargs) !! "verbose").
Proof.
  assert (H : is_Some ((g ∪ default_kwargs) !! "verbose")).
  { rewrite lookup_union. destruct (g !! "verbose"); simpl; eauto. }
  destruct ver; simpl; try exact H; now rewrite lookup_delete_ne.
Qed.

Lemma agree_dom (g1 g2 : gmap string pyval) :
  agree_except_verbose g1 g2 ->
  dom g1 ⊆ dom default_kwargs -> dom g2 ⊆ dom default_kwargs.
Proof.
  intros Hagree Hsub k Hk. destruct (decide (k = "verbose")) as [->|Hne].
  - apply elem_of_dom. vm_compute. eauto.
  - apply Hsub. apply elem_of_dom. rewrite (Hagree k Hne). now apply elem_of_dom.
Qed.

(** Up to the cache, two such calls do the same: same arrays, same package,
    and keyword arguments for it that differ in [verbose] at most. *)
Lemma prepare_verbose (X : list (arg Row)) (a1 a2 : arguments)
    (X' : list (list Row)) (ver : backend) (kw1 : gmap string pyval) :
  same_except_verbose a1 a2 ->
  prepare' X a1 = Ok (X', ver, kw1) ->
  exists kw2,
    prepare' X a2 = Ok (X', ver, kw2) /\
    agree_except_verbose kw1 kw2 /\
    is_Some (kw1 !! "verbose") /\ is_Some (kw2 !! "verbose").
Proof.
  intros (Hn & Hc & Hr & Hf & Hagree) H. unfold prepare in *.
  destruct (bool_decide (dom (given_kwargs a1) ⊆ dom default_kwargs)) eqn:Hdom;
    [|discriminate].
  apply bool_decide_eq_true in Hdom.
  rewrite bool_decide_eq_true_2 by (eapply agree_dom; eauto).
  apply bind_Ok in H as (arrays & Hcheck & H). rewrite Hcheck. unfold_result.
  assert (Hrs : (given_kwargs a2 ∪ default_kwargs) !! "random_state"
                = (given_kwargs a1 ∪ default_kwargs) !! "random_state").
  { symmetry. apply agree_union; [exact Hagree | discriminate]. }
  rewrite Hrs, <- Hn, <- Hf.
  destruct (downsample RandomState permutation (n_samples a1) _ arrays) as [new_X|e];
    [|discriminate].
  injection H as <- <- <-. eexists. split; [reflexivity|]. split; [|split].
  - apply agree_modify, agree_union, Hagree.
  - apply verbose_is_set.
  - apply verbose_is_set.
Qed.

(** The cache is read through the key only. *)
Lemma lookup_one_keys (ver : backend) (kw1 kw2 : gmap string pyval)
    (cache : gmap string (list ERow)) (i : nat) (x : list Row) :
  (forall md5, _create_key (backend_name ver) kw1 md5 = _create_key (backend_name ver) kw2 md5) ->
  lookup_one' ver kw1 cache i x = lookup_one' ver kw2 cache i x.
Proof. intros Hkey. unfold lookup_one. now rewrite Hkey. Qed.

Lemma lookup_each_keys (ver : backend) (kw1 kw2 : gmap string pyval)
    (cache : gmap string (list ERow)) (i : nat) (X : list (list Row)) :
  (forall md5, _create_key (backend_name ver) kw1 md5 = _create_key (backend_name ver) kw2 md5) ->
  lookup_each' ver kw1 cache i X = lookup_each' ver kw2 cache i X.
Proof.
  intros Hkey. revert i. induction X as [|x rest IH]; intros i; simpl; [reflexivity|].
  rewrite (lookup_one_keys ver kw1 kw2 cache i x Hkey).
  destruct (lookup_one' ver kw2 cache i x) as [[res jobs]|e]; [|reflexivity].
  unfold_result. now rewrite IH.
Qed.

Lemma lookup_cached_keys (ver : backend) (kw1 kw2 : gmap string pyval) (comb : bool)
    (cache : gmap string (list ERow)) (X : list (list Row)) :
  (forall md5, _create_key (backend_name ver) kw1 md5 = _create_key (backend_name ver) kw2 md5) ->
  lookup_cached' ver kw1 comb cache X = lookup_cached' ver kw2 comb cache X.
Proof.
  intros Hkey. unfold lookup_cached. destruct comb.
  - destruct (if (1 <? length X)%nat then _ else _) as [x|e]; [|reflexivity].
    unfold_result. now rewrite (lookup_one_keys ver kw1 kw2 cache 0 x Hkey).
  - now rewrite (lookup_each_keys ver kw1 kw2 cache 0 X Hkey).
Qed.

Lemma lookup_one_cases (ver : backend) (kw : gmap string pyval)
    (cache : gmap string (list ERow)) (i : nat) (x : list Row)
    (res : list (nat * list ERow)) (jobs : list (nat * string * list Row)) :
  lookup_one' ver kw cache i x = Ok (res, jobs) ->
  exists key,
    _create_key (backend_name ver) kw (md5_checksum x) = Ok key /\
    ((exists e, cache !! key = Some e /\ res = [(i, e)] /\ jobs = []) \/
     (cache !! key = None /\ res = [] /\ jobs = [(i, md5_checksum x, x)])).
Proof.
  unfold lookup_one. intros H. apply bind_Ok in H as (key & Hkey & H).
  exists key. split; [exact Hkey|].
  destruct (cache !! key) as [e|]; injection H as <- <-; eauto.
Qed.

Lemma lookup_one_cached (ver : backend) (kw : gmap string pyval)
    (cache : gmap string (list ERow)) (i : nat) (x : list Row) :
  is_cached ver kw cache (md5_checksum x) ->
  exists key e, _create_key (backend_name ver) kw (md5_checksum x) = Ok key /\
                cache !! key = Some e /\
                lookup_one' ver kw cache i x = Ok ([(i, e)], []).
Proof.
  intros (key & Hkey & [e He]). exists key, e. split; [exact Hkey|]. split; [exact He|].
  unfold lookup_one. rewrite Hkey. unfold_result. now rewrite He.
Qed.

Lemma lookup_each_jobs (ver : backend) (kw : gmap string pyval)
    (cache : gmap string (list ERow)) (X : list (list Row)) :
  forall i res jobs,
    lookup_each' ver kw cache i X = Ok (res, jobs) ->
    forall x, x ∈ X ->
      is_cached ver kw cache (md5_checksum x) \/
      exists idx, (idx, md5_checksum x, x) ∈ jobs.
Proof.
  induction X as [|x0 rest IH]; intros i res jobs H x Hx; [inversion Hx|].
  simpl in H. apply bind_Ok in H as ([res0 jobs0] & Hone & H).
  apply bind_Ok in H as ([res1 jobs1] & Heach & H). injection H as <- <-.
  apply elem_of_cons in Hx as [-> | Hx].
  - apply lookup_one_cases in Hone as (key & Hkey & [(e & He & _ & _) | (_ & _ & ->)]).
    + left. exists key. rewrite He. eauto.
    + right. exists i. apply elem_of_app. left. left.
  - destruct (IH _ _ _ Heach x Hx) as [Hc | [idx Hidx]]; [now left|].
    right. exists idx. apply elem_of_app. now right.
Qed.

Lemma lookup_each_all_cached (ver : backend) (kw : gmap string pyval)
    (cache : gmap string (list ERow)) (X : list (list Row)) :
  (forall x, x ∈ X -> is_cached ver kw cache (md5_checksum x)) ->
  forall i, exists res,
    lookup_each' ver kw cache i X = Ok (res, []) /\
    forall j e, (j, e) ∈ res -> exists key, cache !! key = Some e.
Proof.
  induction X as [|x rest IH]; intros Hall i; simpl.
  - exists []. split; [reflexivity|]. intros j e Hin. inversion Hin.
  - destruct (lookup_one_cached ver kw cache i x) as (key & e & _ & He & Hone).
    { apply Hall. left. }
    destruct (IH (fun y Hy => Hall y (list_elem_of_further _ _ _ Hy)) (S i))
      as (res & Hres & Hvals).
    rewrite Hone. unfold_result. rewrite Hres.
    exists ((i, e) :: res). split; [reflexivity|].
    intros j e' Hin. apply elem_of_cons in Hin as [[= -> ->] | Hin]; eauto.
Qed.

Lemma is_cached_store (ver : backend) (kw : gmap string pyval) (st : state ERow)
    (key : string) (e : list ERow) (md5 : string) :
  is_cached ver kw (_cached_values st) md5 ->
  is_cached ver kw (_cached_values (store key e (count_fit st))) md5.
Proof.
  intros (key' & Hkey' & Hsome). exists key'. split; [exact Hkey'|]. simpl.
  destruct (decide (key = key')) as [->|Hne].
  - rewrite lookup_insert_eq. eauto.
  - now rewrite lookup_insert_ne.
Qed.

Lemma run_sequential_stores (ver : backend) (kw : gmap string pyval) (rm : bool)
    (jobs : list (nat * string * list Row)) :
  forall res model st res' model' st',
    run_sequential' ver kw rm jobs res model st = (Ok (res', model'), st') ->
    (forall md5, is_cached ver kw (_cached_values st) md5 ->
                 is_cached ver kw (_cached_values st') md5) /\
    (forall idx md5 x, (idx, md5, x) ∈ jobs -> is_cached ver kw (_cached_values st') md5).
Proof.
  induction jobs as [|[[idx0 md50] x0] rest IH]; intros res model st res' model' st' H.
  - simpl in H. injection H as <- <- <-. split; [auto|]. intros idx md5 x Hin. inversion Hin.
  - simpl in H. destruct (fit_transform ver kw x0) as [e m].
    destruct (_create_key (backend_name ver) kw md50) as [key|err] eqn:Hkey; [|discriminate].
    apply IH in H as [Hmono Hjobs]. split.
    + intros md5 Hc. apply Hmono. now apply is_cached_store.
    + intros idx md5 x Hin. apply elem_of_cons in Hin as [[= -> -> ->] | Hin].
      * apply Hmono. exists key. split; [exact Hkey|]. simpl.
        rewrite lookup_insert_eq. eauto.
      * eapply Hjobs. exact Hin.
Qed.

Lemma run_mpi_stores (ver : backend) (kw : gmap string pyval) (rm : bool)
    (jobs : list (nat * string * list Row)) :
  forall res model st res' model' st',
    run_mpi' ver kw rm jobs res model st = (Ok (res', model'), st') ->
    (forall md5, is_cached ver kw (_cached_values st) md5 ->
                 is_cached ver kw (_cached_values st') md5) /\
    (forall idx md5 x, (idx, md5, x) ∈ jobs -> is_cached ver kw (_cached_values st') md5).
Proof.
  induction jobs as [|[[idx0 md50] x0] rest IH]; intros res model st res' model' st' H.
  - simpl in H. injection H as <- <- <-. split; [auto|]. intros idx md5 x Hin. inversion Hin.
  - simpl in H. destruct (fit_transform ver kw x0) as [e m].
    destruct (_create_key (backend_name ver) kw md50) as [key|err] eqn:Hkey; [|discriminate].
    apply IH in H as [Hmono Hjobs]. split.
    + intros md5 Hc. apply Hmono. now apply is_cached_store.
    + intros idx md5 x Hin. apply elem_of_cons in Hin as [[= -> -> ->] | Hin].
      * apply Hmono. exists key. split; [exact Hkey|]. simpl.
        rewrite lookup_insert_eq. eauto.
      * eapply Hjobs. exact Hin.
Qed.

Lemma perform_stores (ver : backend) (kw : gmap string pyval) (rm : bool)
    (jobs : list (nat * string * list Row)) (res res' : list (nat * list ERow))
    (model : option (models Model)) (st st' : state ERow) :
  perform' ver kw rm jobs res st = (Ok (res', model), st') ->
  (forall md5, is_cached ver kw (_cached_values st) md5 ->
               is_cached ver kw (_cached_values st') md5) /\
  (forall idx md5 x, (idx, md5, x) ∈ jobs -> is_cached ver kw (_cached_values st') md5).
Proof.
  unfold perform. intros H. destruct (_ || _).
  - destruct (run_sequential' ver kw rm jobs res None st) as [[[r m]|e] s] eqn:Hrun;
      [|discriminate].
    injection H as <- _ <-. eapply run_sequential_stores. exact Hrun.
  - destruct (run_mpi' ver kw rm jobs res [] st) as [[[r m]|e] s] eqn:Hrun;
      [|discriminate].
    injection H as <- _ <-. eapply run_mpi_stores. exact Hrun.
Qed.

(** With nothing left to compute, the work of lines 207-222 leaves the
    results and the state as they are. *)
Lemma perform_nothing (ver : backend) (kw : gmap string pyval) (rm : bool)
    (res : list (nat * list ERow)) (st : state ERow) :
  perform' ver kw rm [] res st = (Ok (res, model_when_cached ver), st).
Proof. destruct ver; reflexivity. Qed.

(** A call that finds everything in the cache. *)
Lemma fast_tsne_all_cached (X : list (arg Row)) (a : arguments) (st : state ERow)
    (X' : list (list Row)) (ver : backend) (kw : gmap string pyval)
    (X_size : list nat) (res : list (nat * list ERow)) :
  prepare' X a = Ok (X', ver, kw) ->
  lookup_cached' ver kw (combined a) (_cached_values st) X' = Ok (X_size, res, []) ->
  fast_tsne' X a st =
    (results ← collect (combined a) X_size res;
     finish (return_model a) results (model_when_cached ver), st).
Proof.
  intros Hprep Hlook. unfold fast_tsne. rewrite Hprep, Hlook, perform_nothing. reflexivity.
Qed.

(** After a combined call that returned, the stacked array is in the cache
    with the embedding the call worked with. *)
Lemma combined_call_caches (ver : backend) (kw : gmap string pyval) (rm : bool)
    (x : list Row) (res res' : list (nat * list ERow))
    (jobs : list (nat * string * list Row)) (model : option (models Model))
    (st st' : state ERow) :
  lookup_one' ver kw (_cached_values st) 0 x = Ok (res, jobs) ->
  perform' ver kw rm jobs res st = (Ok (res', model), st') ->
  res' <> [] /\ lookup_one' ver kw (_cached_values st') 0 x = Ok (res', []).
Proof.
  intros Hone Hperf.
  pose proof Hone as Hcases.
  apply lookup_one_cases in Hcases as (key & Hkey & [(e & He & -> & ->) | (Hnone & -> & ->)]).
  - rewrite perform_nothing in Hperf. injection Hperf as <- _ <-.
    split; [discriminate | exact Hone].
  - unfold perform in Hperf. simpl in Hperf.
    destruct (fit_transform ver kw x) as [e m]. rewrite Hkey in Hperf.
    injection Hperf as <- _ <-. split; [discriminate|].
    unfold lookup_one. rewrite Hkey. unfold_result. simpl.
    now rewrite lookup_insert_eq.
Qed.

Lemma collect_ok (comb : bool) (X_size : list nat) (res : list (nat * list ERow)) :
  (comb = true -> res <> []) ->
  exists embs, collect comb X_size res = Ok embs /\
    (comb = false -> forall e, e ∈ embedding_list embs -> exists i, (i, e) ∈ res).
Proof.
  intros Hne. unfold collect.
  destruct (comb && (1 <? length X_size)%nat) eqn:Hc.
  - apply andb_true_iff in Hc as [-> _].
    destruct res as [|[i e] res]; [now destruct Hne|].
    unfold_result. eexists. split; [reflexivity|]. discriminate.
  - unfold_result. eexists. split; [reflexivity|]. intros _ e He.
    assert (Hin : e ∈ map snd (merge_sort (idx_le (ERow:=ERow)) res)).
    { destruct (map snd (merge_sort idx_le res)) as [|e1 [|e2 l]]; exact He. }
    apply list_elem_of_fmap in Hin as ([i e'] & -> & Hin).
    exists i. now rewrite merge_sort_Permutation in Hin.
Qed.

(** C10. Two calls on the same inputs whose keyword arguments differ at
    most in [verbose] run with the same package, the same arrays and the
    same cache keys. When the first has returned, the second does not fit
    anything and leaves the cache as it is; its outcome is the one the first
    call's own [verbose] would give; when the model is not asked for it
    returns embeddings, each of them read from the cache (when the arrays are
    not combined) and the very ones the first call returned (when they
    are). *)
Theorem cached_call_ignores_verbose (X : list (arg Row)) (a1 a2 : arguments)
    (st st1 : state ERow) (out1 : output (list ERow) Model) :
  same_except_verbose a1 a2 ->
  fast_tsne' X a1 st = (Ok out1, st1) ->
  (exists X' ver kw1 kw2,
      prepare' X a1 = Ok (X', ver, kw1) /\
      prepare' X a2 = Ok (X', ver, kw2) /\
      forall md5, _create_key (backend_name ver) kw1 md5
                  = _create_key (backend_name ver) kw2 md5) /\
  (fast_tsne' X a2 st1).2 = st1 /\
  fast_tsne' X a2 st1 = fast_tsne' X a1 st1 /\
  (return_model a2 = false ->
   exists embs,
     fast_tsne' X a2 st1 = (Ok (Embeddings embs), st1) /\
     (combined a2 = true -> out1 = Embeddings embs) /\
     (combined a2 = false ->
      forall e, e ∈ embedding_list embs -> exists key, _cached_values st1 !! key = Some e)).
Proof.
  intros Hsame H.
  pose proof Hsame as (_ & Hcomb & Hrm & _ & _).
  unfold fast_tsne in H.
  destruct (prepare' X a1) as [[[X' ver] kw1]|err] eqn:Hprep; [|discriminate].
  destruct (lookup_cached' ver kw1 (combined a1) (_cached_values st) X')
    as [[[X_size res] jobs]|err] eqn:Hlook; [|discriminate].
  destruct (perform' ver kw1 (return_model a1) jobs res st)
    as [[[res' model]|err] st'] eqn:Hperf; [|discriminate].
  injection H as Hout <-.
  destruct (prepare_verbose X a1 a2 X' ver kw1 Hsame Hprep)
    as (kw2 & Hprep2 & Hagree & Hv1 & Hv2).
  pose proof (create_key_ignores_verbose kw1 kw2 Hagree Hv1 Hv2 (backend_name ver)) as Hkey.
  (* what the cache holds after the first call *)
  assert (Hcached : exists X_size2 res2,
    lookup_cached' ver kw1 (combined a1) (_cached_values st') X' = Ok (X_size2, res2, []) /\
    (combined a1 = true -> res2 <> [] /\ X_size2 = X_size /\ res2 = res') /\
    (combined a1 = false ->
     forall j e, (j, e) ∈ res2 -> exists key, _cached_values st' !! key = Some e)).
  { unfold lookup_cached in *. destruct (combined a1).
    - apply bind_Ok in Hlook as (x & Hx & Hlook). rewrite Hx. unfold_result.
      destruct (lookup_one' ver kw1 (_cached_values st) 0 x) as [[r j]|err] eqn:Hone;
        [|discriminate].
      injection Hlook as <- <- <-.
      destruct (combined_call_caches ver kw1 (return_model a1) x r res' j model st st'
                  Hone Hperf) as [Hne Hone'].
      rewrite Hone'. eexists. eexists. split; [reflexivity|]. split; [auto | discriminate].
    - apply bind_Ok in Hlook as ([r j] & Heach & Hlook). injection Hlook as <- <- <-.
      apply perform_stores in Hperf as [Hmono Hjobs].
      destruct (lookup_each_all_cached ver kw1 (_cached_values st') X') with (i := 0%nat)
        as (res2 & Hres2 & Hvals).
      { intros x Hx.
        destruct (lookup_each_jobs ver kw1 (_cached_values st) X' _ _ _ Heach x Hx)
          as [Hc | [idx Hidx]]; [now apply Hmono | eapply Hjobs; exact Hidx]. }
      rewrite Hres2. unfold_result. eexists. eexists.
      split; [reflexivity|]. split; [discriminate | auto]. }
  destruct Hcached as (X_size2 & res2 & Hlook1 & Hcombined & Hseparate).
  assert (Hlook2 : lookup_cached' ver kw2 (combined a2) (_cached_values st') X'
                   = Ok (X_size2, res2, [])).
  { rewrite <- Hcomb, <- (lookup_cached_keys ver kw1 kw2); assumption. }
  pose proof (fast_tsne_all_cached X a1 st' X' ver kw1 X_size2 res2 Hprep Hlook1) as Hcall1.
  pose proof (fast_tsne_all_cached X a2 st' X' ver kw2 X_size2 res2 Hprep2 Hlook2) as Hcall2.
  split; [|split; [|split]].
  - exists X', ver, kw1, kw2. auto.
  - now rewrite Hcall2.
  - rewrite Hcall1, Hcall2, Hcomb, Hrm. reflexivity.
  - intros Hnomodel.
    destruct (collect_ok (combined a1) X_size2 res2) as (embs & Hcollect & Hfrom).
    { intros Hc. now apply Hcombined. }
    exists embs. rewrite Hcall2, <- Hcomb, Hcollect, Hnomodel. unfold_result. simpl.
    split; [reflexivity|]. split.
    + intros Hc. destruct (Hcombined Hc) as (_ & -> & ->).
      rewrite Hcollect in Hout. rewrite <- Hrm in Hnomodel.
      rewrite Hnomodel in Hout. unfold_result. simpl in Hout. now injection Hout.
    + intros Hc e He. destruct (Hfrom Hc e He) as [i Hi]. eapply Hseparate; eauto.
Qed.

End Caching.

(** *** The statements on sample calls *)

Import Samples.

Lemma downsampling_and_input_check_witness :
  (exists new_X,
      prepare a_RandomState a_permutation false false two_arrays (call_with (Some 3%Z) ∅)
        = Ok (new_X, Sklearn, modify_kwargs Sklearn (∅ ∪ default_kwargs)) /\
      Forall2 (sampled_or_same a_permutation 3)
              [[10; 11; 12; 13; 14]; [20; 21]]%nat new_X) /\
  a_fast_tsne [NdArray [1%nat]; Other] (call_with (Some 3%Z) ∅) empty_cache
    = (Raise (ValueError "`X` can only be list of numpy.ndarray or numpy.ndarray"),
       empty_cache).
Proof.
  assert (Hperm : forall (rand : unit) (n : nat), (a_permutation rand n).1 ≡ₚ seq 0 n)
    by (intros; reflexivity).
  assert (Hdom : dom (given_kwargs (call_with (Some 3%Z) ∅)) ⊆ dom default_kwargs)
    by (simpl; set_solver).
  split.
  - destruct (downsampling_and_input_check a_RandomState a_permutation false false Hperm
                a_md5 a_fit_transform two_arrays (call_with (Some 3%Z) ∅) Hdom) as [H _].
    apply (H [[10; 11; 12; 13; 14]; [20; 21]]%nat 3%Z); [reflexivity | reflexivity | lia].
  - destruct (downsampling_and_input_check a_RandomState a_permutation false false Hperm
                a_md5 a_fit_transform [NdArray [1%nat]; Other] (call_with (Some 3%Z) ∅) Hdom)
      as [_ H].
    apply (H Other empty_cache); [discriminate | right; left | reflexivity].
Defined.

Lemma cached_call_ignores_verbose_witness :
  let a1 := call_with None ∅ in
  let a2 := call_with None {[ "verbose" := PInt 1 ]} in
  let st1 := (a_fast_tsne one_array a1 empty_cache).2 in
  a_fast_tsne one_array a1 empty_cache = (Ok (Embeddings (One [10; 11; 12]%nat)), st1) /\
  fit_calls st1 = 1%nat /\
  a_fast_tsne one_array a2 st1 = (Ok (Embeddings (One [10; 11; 12]%nat)), st1).
Proof.
  intros a1 a2 st1.
  assert (Hsame : same_except_verbose a1 a2).
  { repeat split. intros k Hk. simpl. rewrite lookup_empty. symmetry.
    apply lookup_singleton_ne. congruence. }
  assert (Hfirst : a_fast_tsne one_array a1 empty_cache
                   = (Ok (Embeddings (One [10; 11; 12]%nat)), st1))
    by (vm_compute; reflexivity).
  split; [exact Hfirst|]. split; [vm_compute; reflexivity|].
  destruct (cached_call_ignores_verbose a_md5 a_RandomState a_permutation false false
              a_fit_transform one_array a1 a2 empty_cache st1 _ Hsame Hfirst)
    as (_ & _ & _ & H).
  destruct (H eq_refl) as (embs & Hcall & Hcombined & _).
  pose proof (Hcombined eq_refl) as Hembs. injection Hembs as <-. exact Hcall.
Defined.

(** With the model asked for, a call that finds everything in the cache
    reaches [return results, model] with [model] unassigned when the package
    is [MulticoreTSNE]. *)
Example cached_call_with_model :
  let tsne := fast_tsne a_md5 a_RandomState a_permutation false true a_fit_transform in
  let a := {| n_samples := None; combined := true; return_model := true;
              force_sklearn := false; given_kwargs := ∅ |} in
  let st1 := (tsne one_array a empty_cache).2 in
  (tsne one_array a empty_cache).1
    = Ok (WithModel (One [10; 11; 12]%nat) (LastModel (Some tt))) /\
  tsne one_array a st1 = (Raise (UnboundLocalError "model"), st1).
Proof. vm_compute. split; reflexivity. Qed.

End FastTsneSpec.

(** ** odin/fuel/_image_base.py: partitions, samples and the dataset pipeline *)

Module ImageDataSpec.
Import Py Tf PyFacts ImageBase ImageData.

Lemma startswith_spec (p s : string) :
  startswith p s = true <-> exists rest, s = p +:+ rest.
Proof.
  revert s. induction p as [|a p IH]; intros s; simpl.
  - split; [intros _; exists s; reflexivity | reflexivity].
  - destruct s as [|b s].
    + split; [discriminate | intros [rest H]; discriminate H].
    + rewrite andb_true_iff, IH. split.
      * intros [Hab [rest ->]]. apply Ascii.eqb_eq in Hab as ->.
        exists rest. reflexivity.
      * intros [rest H]. rewrite append_cons in H. injection H as -> ->.
        split; [apply Ascii.eqb_refl | eauto].
Qed.

(** [contains] decides [occurs_in]. *)
Lemma contains_spec (needle s : string) :
  contains needle s = true <-> occurs_in needle s.
Proof.
  induction s as [|c s IH]; simpl.
  - rewrite orb_false_r, startswith_spec. split.
    + intros [rest H]. exists "", rest. exact H.
    + intros ([|b before] & after & H); [|discriminate H]. eauto.
  - rewrite orb_true_iff, startswith_spec, IH. split.
    + intros [[rest H] | (before & after & ->)].
      * exists "", rest. exact H.
      * exists (String c before), after. reflexivity.
    + intros ([|b before] & after & H).
      * left. exists after. exact H.
      * right. rewrite append_cons in H. injection H as -> ->. exists before, after.
        reflexivity.
Qed.

Lemma contains_false (needle s : string) :
  contains needle s = false <-> ~ occurs_in needle s.
Proof.
  rewrite <- contains_spec. destruct (contains needle s); split; congruence.
Qed.

(** X1. [_partition] looks for the words train, valid, test and unlabeled,
    in this order, in the lower-cased and stripped name: the first word found
    selects the data, whatever other words the name has; a name with none of
    them is refused, and so is a selected partition without data. *)
Theorem partition_by_first_keyword {D} (part : string) (train valid test unlabeled : option D) :
  let name := strip (lower part) in
  (occurs_in "train" name ->
   _partition part train valid test unlabeled = selected name train) /\
  (~ occurs_in "train" name -> occurs_in "valid" name ->
   _partition part train valid test unlabeled = selected name valid) /\
  (~ occurs_in "train" name -> ~ occurs_in "valid" name -> occurs_in "test" name ->
   _partition part train valid test unlabeled = selected name test) /\
  (~ occurs_in "train" name -> ~ occurs_in "valid" name -> ~ occurs_in "test" name ->
   occurs_in "unlabeled" name ->
   _partition part train valid test unlabeled = selected name unlabeled) /\
  (~ occurs_in "train" name -> ~ occurs_in "valid" name -> ~ occurs_in "test" name ->
   ~ occurs_in "unlabeled" name ->
   _partition part train valid test unlabeled
     = Raise (ValueError ("No support for partition with name: '" +:+ name +:+ "'"))).
Proof.
  intros name. unfold _partition. fold name.
  repeat split; intros;
    repeat match goal with
      | H : occurs_in _ _ |- _ => apply contains_spec in H; rewrite H
      | H : ~ occurs_in _ _ |- _ => apply contains_false in H; rewrite H
      end; reflexivity.
Qed.

Lemma partition_by_first_keyword_witness :
  _partition "Train_Test" (Some 1%nat) None (Some 3%nat) None = Ok 1%nat /\
  _partition " validation " (Some 1%nat) None (Some 3%nat) None
    = Raise (ValueError "No data for parition with name: 'validation'") /\
  _partition "dev" (Some 1%nat) None (Some 3%nat) None
    = Raise (ValueError "No support for partition with name: 'dev'").
Proof.
  split; [|split].
  - destruct (partition_by_first_keyword "Train_Test" (Some 1%nat) None (Some 3%nat) None)
      as (H & _).
    apply H. exists "", "_test". reflexivity.
  - destruct (partition_by_first_keyword " validation " (Some 1%nat) None (Some 3%nat) None)
      as (_ & H & _).
    apply H; [apply contains_false; reflexivity | exists "", "ation"; reflexivity].
  - destruct (partition_by_first_keyword "dev" (Some 1%nat) None (Some 3%nat) None)
      as (_ & _ & _ & _ & H).
    apply H; apply contains_false; reflexivity.
Defined.

Lemma lower_ascii_space (c : ascii) : is_space c = true -> lower_ascii c = c.
Proof.
  destruct c as [[] [] [] [] [] [] [] []]; vm_compute; intros H;
    first [reflexivity | discriminate H].
Qed.

Lemma lower_app (a b : string) : lower (a +:+ b) = lower a +:+ lower b.
Proof.
  induction a as [|c a IH]; [reflexivity|].
  rewrite append_cons. simpl. now rewrite IH, append_cons.
Qed.

Lemma lower_blank (ws : string) : is_blank ws = true -> lower ws = ws.
Proof.
  induction ws as [|c ws IH]; simpl; [reflexivity|].
  intros [Hc Hws]%andb_true_iff. now rewrite lower_ascii_space, IH.
Qed.

Lemma lstrip_blank (ws s : string) : is_blank ws = true -> lstrip (ws +:+ s) = lstrip s.
Proof.
  induction ws as [|c ws IH]; [reflexivity|].
  simpl is_blank. intros [Hc Hws]%andb_true_iff.
  rewrite append_cons. simpl. rewrite Hc. now apply IH.
Qed.

Lemma rstrip_blank (ws : string) : is_blank ws = true -> rstrip ws = "".
Proof.
  induction ws as [|c ws IH]; simpl; [reflexivity|].
  intros [Hc Hws]%andb_true_iff. now rewrite IH, Hc.
Qed.

Lemma rstrip_app_blank (s ws : string) : is_blank ws = true -> rstrip (s +:+ ws) = rstrip s.
Proof.
  intros Hws. induction s as [|c s IH].
  - simpl. now apply rstrip_blank.
  - rewrite append_cons. simpl. now rewrite IH.
Qed.

Lemma lstrip_all_blank (ws : string) : is_blank ws = true -> lstrip ws = "".
Proof.
  induction ws as [|c ws IH]; simpl; [reflexivity|].
  intros [Hc Hws]%andb_true_iff. rewrite Hc. now apply IH.
Qed.

Lemma strip_app_blank (s ws : string) : is_blank ws = true -> strip (s +:+ ws) = strip s.
Proof.
  intros Hws. unfold strip. induction s as [|c s IH].
  - change ("" +:+ ws) with ws. now rewrite (lstrip_all_blank ws Hws).
  - rewrite append_cons. simpl. destruct (is_space c); [exact IH|].
    rewrite <- append_cons. now apply rstrip_app_blank.
Qed.

(** X2. The partition is chosen regardless of the letter case of the name
    and of whitespace around it: two names with the same lower-cased text, one
    of them padded with whitespace, get the same answer, error message
    included. *)
Theorem partition_ignores_case_and_padding {D} (p q ws1 ws2 : string)
    (train valid test unlabeled : option D) :
  lower p = lower q ->
  is_blank ws1 = true -> is_blank ws2 = true ->
  _partition (ws1 +:+ p +:+ ws2) train valid test unlabeled
    = _partition q train valid test unlabeled.
Proof.
  intros Hpq H1 H2. unfold _partition.
  assert (Hname : strip (lower (ws1 +:+ p +:+ ws2)) = strip (lower q)).
  { rewrite !lower_app, (lower_blank ws1 H1), (lower_blank ws2 H2), Hpq.
    unfold strip at 1. rewrite lstrip_blank by exact H1.
    fold (strip (lower q +:+ ws2)). now apply strip_app_blank. }
  now rewrite Hname.
Qed.

Lemma partition_ignores_case_and_padding_witness :
  _partition ("  " +:+ "TEST" +:+ " ") None None (Some 7%nat) None
    = _partition "test" None None (Some 7%nat) None /\
  _partition "test" None None (Some 7%nat) None = Ok 7%nat.
Proof.
  split; [|reflexivity].
  apply (partition_ignores_case_and_padding "TEST" "test" "  " " "); reflexivity.
Defined.

Section SampleImages.
Context {Batch : Type}.
Variable create_dataset : Z -> result (list Batch).
Variable choice : Z -> nat.

(** X3. [sample_images] refuses, before it builds any dataset, a number of
    samples that is not a square; for a square it returns the batch that the
    seeded choice picks among the first ten batches of the training set, and
    raises [IndexError] when the set has no batch at that position. *)
Theorem sample_images_needs_a_square (n_samples seed : Z) :
  (0 <= n_samples)%Z ->
  ((forall k, (k * k)%Z <> n_samples) ->
   sample_images create_dataset choice n_samples seed
     = Raise (AssertionError "Sqrt of n_samples is not an integer")) /\
  (forall k batches,
     (k * k)%Z = n_samples -> create_dataset n_samples = Ok batches ->
     (forall batch, batches !! choice seed = Some batch -> (choice seed < 10)%nat ->
        sample_images create_dataset choice n_samples seed = Ok batch) /\
     ((length batches <= choice seed)%nat \/ (10 <= choice seed)%nat ->
        sample_images create_dataset choice n_samples seed = Raise IndexError)).
Proof.
  intros Hn. unfold sample_images.
  assert (Hneg : (n_samples <? 0)%Z = false) by (apply Z.ltb_ge; exact Hn).
  rewrite Hneg. unfold_result. split.
  - intros Hnot. assert (Hsq : (Z.sqrt n_samples * Z.sqrt n_samples =? n_samples)%Z = false).
    { apply Z.eqb_neq. apply Hnot. }
    now rewrite Hsq.
  - intros k batches Hk Hds.
    assert (Hsq : (Z.sqrt n_samples * Z.sqrt n_samples =? n_samples)%Z = true).
    { apply Z.eqb_eq. rewrite <- Hk.
      replace (k * k)%Z with (Z.abs k * Z.abs k)%Z by lia.
      rewrite Z.sqrt_square by lia. reflexivity. }
    rewrite Hsq. simpl. rewrite Hds. split.
    + intros batch Hbatch Hlt. rewrite lookup_take_lt by exact Hlt. now rewrite Hbatch.
    + intros Hout.
      assert (Hnone : take 10 batches !! choice seed = None).
      { apply lookup_ge_None. rewrite length_take. lia. }
      now rewrite Hnone.
Qed.

End SampleImages.

Lemma sample_images_needs_a_square_witness :
  sample_images (fun n => Ok (replicate 12 n)) (fun seed => 5%nat) 24 1
    = Raise (AssertionError "Sqrt of n_samples is not an integer") /\
  sample_images (fun n => Ok (replicate 12 n)) (fun seed => 5%nat) 25 1 = Ok 25%Z /\
  sample_images (fun n => Ok (replicate 3 n)) (fun seed => 5%nat) 25 1 = Raise IndexError.
Proof.
  split; [|split].
  - destruct (sample_images_needs_a_square (fun n => Ok (replicate 12 n)) (fun seed => 5%nat)
                24 1 ltac:(lia)) as [H _].
    apply H. intros k Hk.
    destruct (Z_le_gt_dec k 4), (Z_le_gt_dec (-4) k); nia.
  - destruct (sample_images_needs_a_square (fun n => Ok (replicate 12 n)) (fun seed => 5%nat)
                25 1 ltac:(lia)) as [_ H].
    destruct (H 5%Z (replicate 12 25%Z) eq_refl eq_refl) as [Hok _].
    apply Hok; [reflexivity | lia].
  - destruct (sample_images_needs_a_square (fun n => Ok (replicate 3 n)) (fun seed => 5%nat)
                25 1 ltac:(lia)) as [_ H].
    destruct (H 5%Z (replicate 3 25%Z) eq_refl eq_refl) as [_ Hout].
    apply Hout. left. simpl. lia.
Defined.

Lemma Qlt_bool_iff (a b : Q) : Qlt_bool a b = true <-> (a < b)%Q.
Proof.
  unfold Qlt_bool. rewrite negb_true_iff. split.
  - intros H. apply Qnot_le_lt. intros Hle. apply Qle_bool_iff in Hle. congruence.
  - intros H. destruct (Qle_bool b a) eqn:Hle; [|reflexivity].
    apply Qle_bool_iff in Hle. exfalso. now apply (Qlt_not_le a b).
Qed.

Lemma Qeq_bool_inject_Z (a b : Z) : Qeq_bool (inject_Z a) (inject_Z b) = (a =? b)%Z.
Proof.
  destruct (a =? b)%Z eqn:Hab.
  - apply Z.eqb_eq in Hab as ->. apply Qeq_bool_iff. reflexivity.
  - apply Z.eqb_neq in Hab. destruct (Qeq_bool _ _) eqn:Hq; [|reflexivity].
    apply Qeq_bool_iff in Hq. unfold Qeq in Hq. simpl in Hq. lia.
Qed.

(** The entries of a one-hot vector. *)
Lemma one_hot_entries (n : nat) (label : Q) :
  elements (one_hot n label)
  = map (fun i => if Qeq_bool (inject_Z (Z.of_nat i)) label then 1%Q else 0%Q) (seq 0 n).
Proof.
  unfold one_hot. simpl. generalize (seq 0 n) as l.
  induction l as [|i l IH]; simpl; [reflexivity | now rewrite IH].
Qed.

Lemma one_hot_in_range (n i : nat) :
  (i < n)%nat ->
  elements (one_hot n (inject_Z (Z.of_nat i)))
  = replicate i 0%Q ++ [1%Q] ++ replicate (n - Datatypes.S i) 0%Q.
Proof.
  intros Hi. rewrite one_hot_entries.
  replace n with (i + (1 + (n - Datatypes.S i)))%nat at 1 by lia.
  rewrite !seq_app, !map_app. simpl seq. simpl map.
  rewrite Qeq_bool_inject_Z, Z.eqb_refl. f_equal; [|f_equal].
  - apply list_eq. intros j. rewrite list_lookup_fmap.
    destruct (decide (j < i)%nat) as [Hj|Hj].
    + rewrite lookup_seq_lt, lookup_replicate_2 by lia. simpl.
      rewrite Qeq_bool_inject_Z.
      match goal with |- context [(?a =? ?b)%Z] => destruct (Z.eqb_spec a b) end;
        [lia | reflexivity].
    + rewrite lookup_seq_ge by lia. simpl. symmetry. apply lookup_replicate_None. lia.
  - apply list_eq. intros j. rewrite list_lookup_fmap.
    destruct (decide (j < n - Datatypes.S i)%nat) as [Hj|Hj].
    + rewrite lookup_seq_lt, lookup_replicate_2 by lia. simpl.
      rewrite Qeq_bool_inject_Z.
      match goal with |- context [(?a =? ?b)%Z] => destruct (Z.eqb_spec a b) end;
        [lia | reflexivity].
    + rewrite lookup_seq_ge by lia. simpl. symmetry. apply lookup_replicate_None. lia.
Qed.

Lemma one_hot_out_of_range (n : nat) (label : Q) :
  (forall i, (i < n)%nat -> ~ (inject_Z (Z.of_nat i) == label)%Q) ->
  elements (one_hot n label) = replicate n 0%Q.
Proof.
  intros Hout. rewrite one_hot_entries. apply list_eq. intros j.
  rewrite list_lookup_fmap. destruct (decide (j < n)%nat) as [Hj|Hj].
  - rewrite lookup_seq_lt, lookup_replicate_2 by lia. simpl.
    destruct (Qeq_bool _ label) eqn:Hq; [|reflexivity].
    apply Qeq_bool_iff in Hq. now destruct (Hout j Hj).
  - rewrite lookup_seq_ge by lia. simpl. symmetry. apply lookup_replicate_None. lia.
Qed.

(** X4. When labels are asked for, a scalar label [i] below the number of
    labels comes out as the vector of that length with a one at position [i] and
    zeros elsewhere; a scalar label that is none of [0 .. n_labels-1] comes out
    as the all-zero vector, without an error. *)
Theorem process_one_hot (binary : bool) (n_labels : nat) (inc_labels u : Q)
    (image : tensor Q) (label : Q) :
  ~ (inc_labels == 0)%Q ->
  exists e vector,
    process binary n_labels inc_labels u image (Some (Scalar label)) = Ok e /\
    label_of e = Some vector /\
    length (elements vector) = n_labels /\
    (forall i, (i < n_labels)%nat -> (label == inject_Z (Z.of_nat i))%Q ->
       elements vector
       = replicate i 0%Q ++ [1%Q] ++ replicate (n_labels - Datatypes.S i) 0%Q) /\
    ((forall i, (i < n_labels)%nat -> ~ (inject_Z (Z.of_nat i) == label)%Q) ->
       elements vector = replicate n_labels 0%Q).
Proof.
  intros Hinc. unfold process.
  assert (Hz : Qeq_bool inc_labels 0 = false).
  { destruct (Qeq_bool inc_labels 0) eqn:H; [|reflexivity].
    apply Qeq_bool_iff in H. contradiction. }
  rewrite Hz. simpl. unfold_result.
  assert (Hvec : length (elements (one_hot n_labels label)) = n_labels /\
    (forall i, (i < n_labels)%nat -> (label == inject_Z (Z.of_nat i))%Q ->
       elements (one_hot n_labels label)
       = replicate i 0%Q ++ [1%Q] ++ replicate (n_labels - Datatypes.S i) 0%Q) /\
    ((forall i, (i < n_labels)%nat -> ~ (inject_Z (Z.of_nat i) == label)%Q) ->
       elements (one_hot n_labels label) = replicate n_labels 0%Q)).
  { split; [|split].
    - rewrite one_hot_entries, length_map, length_seq. reflexivity.
    - intros i Hi Hlabel. rewrite <- (one_hot_in_range n_labels i Hi).
      rewrite !one_hot_entries. apply map_ext. intros j.
      destruct (Qeq_bool (inject_Z (Z.of_nat j)) label) eqn:H1;
        destruct (Qeq_bool (inject_Z (Z.of_nat j)) (inject_Z (Z.of_nat i))) eqn:H2;
        try reflexivity; exfalso.
      + apply Qeq_bool_iff in H1. rewrite Hlabel in H1. apply Qeq_bool_iff in H1. congruence.
      + apply Qeq_bool_iff in H2. rewrite <- Hlabel in H2. apply Qeq_bool_iff in H2.
        congruence.
    - apply one_hot_out_of_range. }
  destruct (Qlt_bool 0 inc_labels && Qlt_bool inc_labels 1);
    eexists; eexists; (split; [reflexivity|]); (split; [reflexivity|]); exact Hvec.
Qed.

Lemma process_one_hot_witness :
  exists e,
    process false 10 1 0 (Scalar 255%Q) (Some (Scalar 3%Q)) = Ok e /\
    option_map elements (label_of e) = Some [0; 0; 0; 1; 0; 0; 0; 0; 0; 0]%Q.
Proof.
  destruct (process_one_hot false 10 1 0 (Scalar 255%Q) 3%Q)
    as (e & vector & Hprocess & Hlabel & _ & Hin & _).
  { discriminate. }
  exists e. split; [exact Hprocess|]. rewrite Hlabel. simpl.
  rewrite (Hin 3%nat); [reflexivity | lia | reflexivity].
Defined.




(** X6. A dataset whose elements have a single component never gets labels,
    whatever [inc_labels] asks for. Otherwise the mapped function returns the
    image alone when [inc_labels] is 0 (or [False]), the image with its label
    and a mask when [inc_labels] is strictly between 0 and 1, the mask being
    set exactly when the number drawn is below [inc_labels], and the image
    with its label and no mask in every other case, [True] included. *)
Theorem process_labels_and_mask (binary : bool) (n : nat) (components : nat)
    (inc_labels u : Q) (image label : tensor Q) :
  let run := process binary n (effective_inc_labels components inc_labels) u image in
  (components = 1%nat -> forall l, exists image', run l = Ok (Image image')) /\
  (components <> 1%nat ->
   ((inc_labels == 0)%Q -> forall l, exists image', run l = Ok (Image image')) /\
   ((0 < inc_labels)%Q -> (inc_labels < 1)%Q ->
    exists image' label' mask,
      run (Some label) = Ok (Masked image' label' mask) /\
      (mask = true <-> (u < inc_labels)%Q)) /\
   (~ (inc_labels == 0)%Q -> ((inc_labels <= 0)%Q \/ (1 <= inc_labels)%Q) ->
    (exists image' label', run (Some label) = Ok (Labelled image' label')) /\
    run None = Raise (KeyError "label"))).
Proof.
  intros run. subst run. unfold effective_inc_labels, process. split.
  - intros ->. simpl. eauto.
  - intros Hc. apply Nat.eqb_neq in Hc. rewrite Hc. split; [|split].
    + intros Hz l. apply Qeq_bool_iff in Hz. rewrite Hz. simpl. eauto.
    + intros H0 H1.
      assert (Hz : Qeq_bool inc_labels 0 = false).
      { destruct (Qeq_bool inc_labels 0) eqn:H; [|reflexivity].
        apply Qeq_bool_iff in H. rewrite H in H0. now apply Qlt_irrefl in H0. }
      rewrite Hz. simpl. unfold_result.
      apply Qlt_bool_iff in H0 as Hb0. apply Qlt_bool_iff in H1 as Hb1.
      rewrite Hb0, Hb1. simpl. do 3 eexists. split; [reflexivity|]. apply Qlt_bool_iff.
    + intros Hnz Hout.
      assert (Hz : Qeq_bool inc_labels 0 = false).
      { destruct (Qeq_bool inc_labels 0) eqn:H; [|reflexivity].
        apply Qeq_bool_iff in H. contradiction. }
      rewrite Hz. simpl. unfold_result. split; [|reflexivity].
      assert (Hb : Qlt_bool 0 inc_labels && Qlt_bool inc_labels 1 = false).
      { apply andb_false_iff. destruct Hout as [Hle | Hge].
        - left. destruct (Qlt_bool 0 inc_labels) eqn:H; [|reflexivity].
          apply Qlt_bool_iff in H. exfalso. now apply (Qlt_not_le 0 inc_labels).
        - right. destruct (Qlt_bool inc_labels 1) eqn:H; [|reflexivity].
          apply Qlt_bool_iff in H. exfalso. now apply (Qlt_not_le inc_labels 1). }
      rewrite Hb. eauto.
Qed.

Lemma process_labels_and_mask_witness :
  (exists image' label' mask,
      process true 10 (effective_inc_labels 2 (1 # 2)) (1 # 4) (Scalar 1%Q)
              (Some (Scalar 3%Q)) = Ok (Masked image' label' mask) /\
      (mask = true <-> (1 # 4 < 1 # 2)%Q)) /\
  (exists image' label',
      process true 10 (effective_inc_labels 2 1) (1 # 4) (Scalar 1%Q) (Some (Scalar 3%Q))
      = Ok (Labelled image' label')).
Proof.
  destruct (process_labels_and_mask true 10 2 (1 # 2) (1 # 4) (Scalar 1%Q) (Scalar 3%Q))
    as [_ H]. destruct (H ltac:(discriminate)) as (_ & Hmask & _).
  destruct (process_labels_and_mask true 10 2 1 (1 # 4) (Scalar 1%Q) (Scalar 3%Q))
    as [_ H']. destruct (H' ltac:(discriminate)) as (_ & _ & Hlabel).
  split.
  - apply Hmask; reflexivity.
  - apply Hlabel; [discriminate | right; discriminate].
Defined.

(** X7. The datasets that do not override [labels] have no label names, so
    for them (BinarizedMNIST and BinarizedAlphaDigits) every scalar label
    comes out of the mapped function as the empty vector. *)
Theorem inherited_labels_are_empty (cls : dataset_class) (inc_labels u : Q)
    (image : tensor Q) (label : Q) (e : example) :
  cls <> MNIST ->
  ~ (inc_labels == 0)%Q ->
  process (is_binary cls) (n_labels cls) inc_labels u image (Some (Scalar label)) = Ok e ->
  n_labels cls = 0%nat /\ label_of e = Some (Axis []).
Proof.
  intros Hcls Hinc H.
  assert (Hn : n_labels cls = 0%nat) by (destruct cls; [reflexivity | contradiction | reflexivity]).
  split; [exact Hn|]. rewrite Hn in H. unfold process in H.
  assert (Hz : Qeq_bool inc_labels 0 = false).
  { destruct (Qeq_bool inc_labels 0) eqn:Hq; [|reflexivity].
    apply Qeq_bool_iff in Hq. contradiction. }
  rewrite Hz in H. simpl in H. unfold_result.
  destruct (Qlt_bool 0 inc_labels && Qlt_bool inc_labels 1); injection H as <-; reflexivity.
Qed.

Lemma inherited_labels_are_empty_witness :
  label_of (Labelled (Scalar 1%Q) (one_hot (n_labels BinarizedAlphaDigits) 7)) = Some (Axis []).
Proof.
  apply (inherited_labels_are_empty BinarizedAlphaDigits 1 0 (Scalar 1%Q) 7);
    [discriminate | discriminate | reflexivity].
Defined.

End ImageDataSpec.
